(** * lab_8_llm/main.py: import, preprocessing, batched inference, evaluation

    A shallow embedding of [src/lab_8_llm/main.py].  The classes of the
    source become modules, their methods functions of the same name that
    receive the object as [self].  The calls into pandas, torch, datasets,
    transformers and evaluate are kept visible: the part of pandas and of
    the torch data loader that the source relies on is modelled in the
    modules [Pandas] and [Torch]; the tokenizer, the language model, the
    dataset registry and the scorers are parameters.

    A Python [str] is a [string], one element per character. *)

From Stdlib Require Import ZArith String List Lia.
From stdpp Require Import base option list strings gmap.

Local Open Scope string_scope.

#[global] Arguments String.eqb : simpl never.

(** ** Exceptions and results *)

Module Py.

(** The exception classes the pipeline can meet.  [LibraryError] stands
    for a failure raised inside an external library (network, registry,
    scorer, tokenizer); its argument identifies the failure. *)
Inductive exn : Type :=
| TypeError
| ValueError
| KeyError (labels : list string)
| IndexError
| AttributeError
| RuntimeError
| LibraryError (what : string).

Inductive result (A : Type) : Type :=
| Ok (a : A)
| Raise (e : exn).
Arguments Ok {A} a.
Arguments Raise {A} e.

Definition bind {A B : Type} (r : result A) (k : A -> result B) : result B :=
  match r with
  | Ok a => k a
  | Raise e => Raise e
  end.

Definition is_ok {A : Type} (r : result A) : bool :=
  match r with Ok _ => true | Raise _ => false end.

(** [len(s)] and the slice [s[n:]] of a [str]. *)
Definition len (s : string) : nat := String.length s.

Fixpoint slice_from (n : nat) (s : string) : string :=
  match n, s with
  | O, _ => s
  | S n', EmptyString => EmptyString
  | S n', String _ s' => slice_from n' s'
  end.

End Py.

Import Py.

Declare Scope py_scope.
Delimit Scope py_scope with py.
Notation "x <- r ;; k" := (Py.bind r (fun x => k))
  (at level 100, r at next level, right associativity) : py_scope.
Local Open Scope py_scope.

(** ** The part of pandas used by the source *)

Module Pandas.

(** A cell holds text, a missing value ([None], [pd.NA]) or an integer. *)
Inductive cell : Type :=
| Text (s : string)
| NA
| Num (z : Z).

Definition cell_eqb (a b : cell) : bool :=
  match a, b with
  | Text s, Text t => String.eqb s t
  | NA, NA => true
  | Num x, Num y => Z.eqb x y
  | _, _ => false
  end.

Definition row_eqb (r1 r2 : list cell) : bool :=
  (length r1 =? length r2)%nat && forallb (fun p => cell_eqb p.1 p.2) (combine r1 r2).

(** A frame: the column labels and the rows in positional order, every
    row with its index label.  The column lookups below return the first
    column that carries a label; frames with a repeated label, for which
    pandas returns a frame instead of a series, are outside the model
    (see [wf]). *)
Record DataFrame : Type := mkDataFrame {
  columns : list string;
  rows : list (Z * list cell)
}.

Definition Series : Type := list cell.

(** Labels are distinct and every row has one cell per column. *)
Definition wf (df : DataFrame) : Prop :=
  NoDup (columns df) /\
  Forall (fun r => length r.2 = length (columns df)) (rows df).

Definition has_column (c : string) (df : DataFrame) : bool :=
  existsb (String.eqb c) (columns df).

(** [len(df)], [df.shape[0]], [df.shape[1]]. *)
Definition len (df : DataFrame) : nat := length (rows df).
Definition shape (df : DataFrame) : nat * nat := (length (rows df), length (columns df)).

(** The cell of a row under label [c]. *)
Fixpoint row_get (cols : list string) (r : list cell) (c : string) : option cell :=
  match cols, r with
  | k :: cols', x :: r' => if String.eqb c k then Some x else row_get cols' r' c
  | _, _ => None
  end.

(** The cells of a row whose label satisfies [keep]. *)
Fixpoint row_keep (keep : string -> bool) (cols : list string) (r : list cell) : list cell :=
  match cols, r with
  | k :: cols', x :: r' =>
      if keep k then x :: row_keep keep cols' r' else row_keep keep cols' r'
  | _, _ => []
  end.

(** [df.replace(old, new)]. *)
Definition replace (old new : cell) (df : DataFrame) : DataFrame :=
  mkDataFrame (columns df)
    (map (fun r => (r.1, map (fun x => if cell_eqb x old then new else x) r.2)) (rows df)).

Definition isna (x : cell) : bool :=
  match x with NA => true | _ => false end.

(** [df.isna().sum().sum()]: the number of missing cells. *)
Definition isna_sum_sum (df : DataFrame) : nat :=
  list_sum (map (fun r => length (filter (fun x => isna x = true) r.2)) (rows df)).

(** [df.dropna()]: the rows without a missing cell, labels kept. *)
Definition dropna (df : DataFrame) : DataFrame :=
  mkDataFrame (columns df)
    (filter (fun r => forallb (fun x => negb (isna x)) r.2 = true) (rows df)).

(** [df.reset_index()]: the old labels become the first column, named
    [index] or, if that label is taken, [level_0]; inserting a label
    that exists raises [ValueError].  The new labels are 0, 1, ... *)
Definition reset_index (df : DataFrame) : result DataFrame :=
  let name := if has_column "index" df then "level_0" else "index" in
  if has_column name df then Raise ValueError
  else Ok (mkDataFrame (name :: columns df)
             (imap (fun i r => (Z.of_nat i, Num r.1 :: r.2)) (rows df))).

(** [df.duplicated()]: a row is marked when an equal row stands above
    it; a frame without rows or without columns gives an empty series. *)
Fixpoint duplicated_from (seen : list (list cell)) (rs : list (list cell)) : list bool :=
  match rs with
  | [] => []
  | r :: rs' => existsb (row_eqb r) seen :: duplicated_from (seen ++ [r])%list rs'
  end.

Definition duplicated (df : DataFrame) : list bool :=
  match columns df with
  | [] => []
  | _ :: _ => duplicated_from [] (map snd (rows df))
  end.

(** [.sum()] of a boolean series. *)
Definition sum (bs : list bool) : nat := length (filter (fun b => b = true) bs).

(** [df.drop(columns=labels)]: every label must exist. *)
Definition drop (labels : list string) (df : DataFrame) : result DataFrame :=
  let missing := filter (fun l => has_column l df = false) labels in
  match missing with
  | [] =>
      let keep := fun k => negb (existsb (String.eqb k) labels) in
      Ok (mkDataFrame (filter (fun k => keep k = true) (columns df))
            (map (fun r => (r.1, row_keep keep (columns df) r.2)) (rows df)))
  | _ :: _ => Raise (KeyError missing)
  end.

(** [df.rename(columns=mapping)]: labels outside the mapping stay. *)
Fixpoint rename_label (mapping : list (string * string)) (k : string) : string :=
  match mapping with
  | [] => k
  | (old, new) :: mapping' => if String.eqb k old then new else rename_label mapping' k
  end.

Definition rename (mapping : list (string * string)) (df : DataFrame) : DataFrame :=
  mkDataFrame (map (rename_label mapping) (columns df)) (rows df).

(** [df[label]]. *)
Definition getitem (label : string) (df : DataFrame) : result Series :=
  if has_column label df
  then Ok (map (fun r => default NA (row_get (columns df) r.2 label)) (rows df))
  else Raise (KeyError [label]).

(** [df.iloc[i]]: the row at position [i], counted from the end when
    [i] is negative. *)
Definition iloc (i : Z) (df : DataFrame) : result (list cell) :=
  let n := Z.of_nat (length (rows df)) in
  let j := (if i <? 0 then i + n else i)%Z in
  if ((j <? 0) || (n <=? j))%Z then Raise IndexError
  else match rows df !! Z.to_nat j with
       | Some r => Ok r.2
       | None => Raise IndexError
       end.

(** [row[label]] on the series [df.iloc[i]]. *)
Definition row_getitem (cols : list string) (r : list cell) (label : string) : result cell :=
  match row_get cols r label with
  | Some x => Ok x
  | None => Raise (KeyError [label])
  end.

(** [df[label] = values] with a list.  A frame without rows takes its
    index from the values: it gets one row per value, labelled 0, 1, ...,
    with the other cells missing.  Otherwise the length must be the row
    count.  An existing column is overwritten where it stands, a new one
    is added as the last column. *)
Fixpoint row_set (cols : list string) (r : list cell) (label : string) (x : cell) : list cell :=
  match cols, r with
  | k :: cols', y :: r' =>
      if String.eqb label k then x :: r' else y :: row_set cols' r' label x
  | _, _ => r
  end.

Definition setitem_rows (label : string) (vals : list cell) (cols : list string)
    (rs : list (Z * list cell)) (present : bool) : DataFrame :=
  if present
  then mkDataFrame cols (zip_with (fun r x => (r.1, row_set cols r.2 label x)) rs vals)
  else mkDataFrame (cols ++ [label])%list
         (zip_with (fun r x => (r.1, (r.2 ++ [x])%list)) rs vals).

Definition setitem (label : string) (vals : list cell) (df : DataFrame) : result DataFrame :=
  match rows df, vals with
  | [], _ :: _ =>
      Ok (setitem_rows label vals (columns df)
            (imap (fun i _ => (Z.of_nat i, replicate (length (columns df)) NA)) vals)
            (has_column label df))
  | _, _ =>
      if (length vals =? length (rows df))%nat
      then Ok (setitem_rows label vals (columns df) (rows df) (has_column label df))
      else Raise ValueError
  end.

(** [df[[l1, ..., lk]]]: the named columns, in the order asked. *)
Definition getitem_list (labels : list string) (df : DataFrame) : result DataFrame :=
  let missing := filter (fun l => has_column l df = false) labels in
  match missing with
  | [] =>
      Ok (mkDataFrame labels
            (map (fun r => (r.1, map (fun l => default NA (row_get (columns df) r.2 l)) labels))
               (rows df)))
  | _ :: _ => Raise (KeyError missing)
  end.

(** The frame built from rows, labelled 0, 1, ... as a fresh frame is. *)
Definition of_rows (cols : list string) (rs : list (list cell)) : DataFrame :=
  mkDataFrame cols (imap (fun i r => (Z.of_nat i, r)) rs).

(** The cell at position [i] under label [c], when there is one. *)
Definition cell_at (df : DataFrame) (i : nat) (c : string) : option cell :=
  r ← rows df !! i; row_get (columns df) r.2 c.

(** [len(x)] of a cell: only text has a length. *)
Definition cell_len (x : cell) : result nat :=
  match x with
  | Text s => Ok (Py.len s)
  | NA | Num _ => Raise TypeError
  end.

End Pandas.

Import Pandas.

(** ** The part of the torch data loader used by the source *)

Module Torch.

(** The batch sampler over the sequential sampler: positions are taken
    in order and a batch is released when it holds [batch_size] of
    them; what is left at the end is released as a last, shorter
    batch. *)
Fixpoint batch_sampler {A : Type} (batch_size : nat) (batch : list A) (sampler : list A)
  : list (list A) :=
  match sampler with
  | [] => match batch with [] => [] | _ :: _ => [batch] end
  | idx :: sampler' =>
      let batch' := (batch ++ [idx])%list in
      if (length batch' =? batch_size)%nat
      then batch' :: batch_sampler batch_size [] sampler'
      else batch_sampler batch_size batch' sampler'
  end.

(** [default_collate] on one field of the samples.  The class of the
    first element decides: text is returned as the sequence it is, a
    missing value is refused, integers are stacked into a tensor, which
    needs every element to be an integer. *)
Definition collate_field (field : list cell) : result (list cell) :=
  match field with
  | [] => Raise IndexError
  | Text _ :: _ => Ok field
  | NA :: _ => Raise TypeError
  | Num _ :: _ =>
      if forallb (fun x => match x with Num _ => true | _ => false end) field
      then Ok field
      else Raise (LibraryError "default_collate")
  end.

Fixpoint collate_fields (fields : list (list cell)) : result (list (list cell)) :=
  match fields with
  | [] => Ok []
  | f :: fields' =>
      c <- collate_field f ;;
      cs <- collate_fields fields' ;;
      Ok (c :: cs)
  end.

(** [default_collate] on a batch of tuples: the tuples must have one
    size, the batch is transposed (by zip) and every field is
    collated. *)
Definition default_collate (batch : list (list cell)) : result (list (list cell)) :=
  match batch with
  | [] => Raise IndexError
  | elem :: _ =>
      if forallb (fun s => (length s =? length elem)%nat) batch
      then collate_fields
             (map (fun j => map (fun s => default NA (s !! j)) batch) (seq 0 (length elem)))
      else Raise RuntimeError
  end.

(** [DataLoader(dataset, batch_size=batch_size)]: the batch size must be
    positive; iterating fetches the samples of one batch of positions
    and collates them, one batch at a time, so the loader is the list of
    the fetches still to make. *)
Definition fetch {S : Type} (getitem : S -> Z -> result (list cell)) (dataset : S)
    (idxs : list nat) : result (list (list cell)) :=
  samples <- foldr (fun i acc =>
                      s <- getitem dataset (Z.of_nat i) ;;
                      ss <- acc ;;
                      Ok (s :: ss)) (Ok []) idxs ;;
  default_collate samples.

Definition DataLoader {S : Type} (len : S -> nat) (getitem : S -> Z -> result (list cell))
    (dataset : S) (batch_size : Z) : result (list (result (list (list cell)))) :=
  if (batch_size <=? 0)%Z then Raise ValueError
  else Ok (map (fetch getitem dataset)
             (batch_sampler (Z.to_nat batch_size) [] (seq 0 (len dataset)))).

End Torch.

(** ** main.py

    The abstract base classes of core_utils are not among the sources;
    of them the records keep the attributes that main.py reads and
    writes.  The decorator [report_time] of core_utils only measures the
    call and hands its result on; it is left out.  [analyze_model] only
    reports figures of the torchinfo summary and is not embedded. *)

(** *** RawDataImporter *)

Module RawDataImporter.

Section Registry.

(** The state of the dataset registry and its cache, the dataset
    objects it hands out, and what [to_pandas] can return besides a
    frame (an iterator of frames). *)
Variables (World HFDataset Other : Type).

Inductive pyobject : Type :=
| IsDataFrame (df : DataFrame)
| NotDataFrame (o : Other).

(** [load_dataset(name, split=split)] and [dataset.to_pandas()]. *)
Variable load_dataset : string -> string -> World -> result HFDataset * World.
Variable to_pandas : HFDataset -> result pyobject.

Record t : Type := mk {
  _hf_name : string;
  _raw_data : option pyobject
}.

(** [obtain]: the outcome, the importer afterwards and the registry
    afterwards.  The attribute is assigned before the class of the
    value is checked. *)
Definition obtain (self : t) (w : World) : result unit * t * World :=
  match load_dataset (_hf_name self) "train" w with
  | (Raise e, w') => (Raise e, self, w')
  | (Ok dataset, w') =>
      match to_pandas dataset with
      | Raise e => (Raise e, self, w')
      | Ok o =>
          let self' := mk (_hf_name self) (Some o) in
          match o with
          | IsDataFrame _ => (Ok tt, self', w')
          | NotDataFrame _ => (Raise TypeError, self', w')
          end
      end
  end.

End Registry.

Arguments IsDataFrame {Other} df.
Arguments NotDataFrame {Other} o.
Arguments mk {Other} _ _.
Arguments _hf_name {Other} _.
Arguments _raw_data {Other} _.
Arguments obtain {World HFDataset Other} load_dataset to_pandas self w.

End RawDataImporter.

(** *** RawDataPreprocessor *)

Module RawDataPreprocessor.

Record t : Type := mk {
  _raw_data : DataFrame;
  _data : option DataFrame
}.

(** [min(series, key=len)] and [max(series, key=len)]: an empty series
    raises [ValueError]; the first element with the least (greatest)
    key wins. *)
Fixpoint min_loop (best : cell) (kbest : nat) (l : list cell) : result cell :=
  match l with
  | [] => Ok best
  | x :: l' =>
      k <- cell_len x ;;
      if (k <? kbest)%nat then min_loop x k l' else min_loop best kbest l'
  end.

Definition min_key_len (l : list cell) : result cell :=
  match l with
  | [] => Raise ValueError
  | x :: l' => k <- cell_len x ;; min_loop x k l'
  end.

Fixpoint max_loop (best : cell) (kbest : nat) (l : list cell) : result cell :=
  match l with
  | [] => Ok best
  | x :: l' =>
      k <- cell_len x ;;
      if (kbest <? k)%nat then max_loop x k l' else max_loop best kbest l'
  end.

Definition max_key_len (l : list cell) : result cell :=
  match l with
  | [] => Raise ValueError
  | x :: l' => k <- cell_len x ;; max_loop x k l'
  end.

Definition analyze (self : t) : result (gmap string nat) :=
  without_empty_rows <- reset_index (dropna (replace (Text "") NA (_raw_data self))) ;;
  let dataset_number_of_samples := (shape (_raw_data self)).1 in
  let dataset_columns := (shape (_raw_data self)).2 in
  let dataset_duplicates := sum (duplicated (_raw_data self)) in
  let dataset_empty_rows := isna_sum_sum (replace (Text "") NA (_raw_data self)) in
  instruction <- getitem "instruction" without_empty_rows ;;
  shortest <- min_key_len instruction ;;
  dataset_sample_min_len <- cell_len shortest ;;
  instruction' <- getitem "instruction" without_empty_rows ;;
  longest <- max_key_len instruction' ;;
  dataset_sample_max_len <- cell_len longest ;;
  Ok (<["dataset_number_of_samples" := dataset_number_of_samples]>
      (<["dataset_columns" := dataset_columns]>
      (<["dataset_duplicates" := dataset_duplicates]>
      (<["dataset_empty_rows" := dataset_empty_rows]>
      (<["dataset_sample_min_len" := dataset_sample_min_len]>
      (<["dataset_sample_max_len" := dataset_sample_max_len]> ∅)))))).

Definition transform (self : t) : result t :=
  dropped <- drop ["input"; "text"] (_raw_data self) ;;
  Ok (mk (_raw_data self)
        (Some (rename [("instruction", "question"); ("output", "target")] dropped))).

End RawDataPreprocessor.

(** *** TaskDataset *)

Module TaskDataset.

Record t : Type := mk { _data : DataFrame }.

Definition __len__ (self : t) : nat := Pandas.len (_data self).

Definition __getitem__ (self : t) (index : Z) : result (list cell) :=
  row <- iloc index (_data self) ;;
  question <- row_getitem (columns (_data self)) row "question" ;;
  row' <- iloc index (_data self) ;;
  target <- row_getitem (columns (_data self)) row' "target" ;;
  Ok [question; target].

Definition data (self : t) : DataFrame := _data self.

End TaskDataset.

(** *** LLMPipeline *)

Module LLMPipeline.

Section Transformers.

(** What the tokenizer returns and what the model generates. *)
Variables (BatchEncoding Generated : Type).

(** [tokenizer(texts, padding=..., truncation=..., return_tensors='pt')]
    and [tokenizer.batch_decode(output, skip_special_tokens=...)]. *)
Record Tokenizer : Type := mkTokenizer {
  call : list string -> bool -> bool -> BatchEncoding;
  batch_decode : Generated -> bool -> list string
}.

(** [model.generate] on the tokens, with [max_length]. *)
Record Model : Type := mkModel {
  generate : BatchEncoding -> Z -> Generated
}.

Record t : Type := mk {
  _model_name : string;
  _dataset : TaskDataset.t;
  _max_length : Z;
  _batch_size : Z;
  _device : string;
  _model : option Model;
  _tokenizer : Tokenizer
}.

(** The tokenizer takes a sequence of texts and refuses anything
    else. *)
Fixpoint texts_of (xs : list cell) : result (list string) :=
  match xs with
  | [] => Ok []
  | Text s :: xs' => ss <- texts_of xs' ;; Ok (s :: ss)
  | _ :: _ => Raise (LibraryError "tokenizer")
  end.

(** The comprehension over [enumerate(predictions)], from position
    [i] on: [prediction[len(sample_batch[0][i]) + 1:]]. *)
Fixpoint strip_prompts (first : list cell) (i : nat) (predictions : list string)
  : result (list string) :=
  match predictions with
  | [] => Ok []
  | prediction :: predictions' =>
      match first !! i with
      | None => Raise IndexError
      | Some question =>
          n <- cell_len question ;;
          rest <- strip_prompts first (S i) predictions' ;;
          Ok (slice_from (n + 1) prediction :: rest)
      end
  end.

Definition _infer_batch (self : t) (sample_batch : list (list cell))
  : result (list string) :=
  match sample_batch !! 0%nat with
  | None => Raise IndexError
  | Some first =>
      texts <- texts_of first ;;
      let tokens := call (_tokenizer self) texts true true in
      match _model self with
      | None => Raise AttributeError
      | Some model =>
          let output := generate model tokens (_max_length self) in
          let predictions := batch_decode (_tokenizer self) output true in
          strip_prompts first 0 predictions
      end
  end.

Definition infer_sample (self : t) (sample : list cell) : result (option string) :=
  match _model self with
  | Some _ =>
      predictions <- _infer_batch self [sample] ;;
      match predictions !! 0%nat with
      | Some prediction => Ok (Some prediction)
      | None => Raise IndexError
      end
  | None => Ok None
  end.

(** The loop [for batch in loader: prediction.extend(...)]. *)
Fixpoint for_batch (self : t) (loader : list (result (list (list cell))))
    (prediction : list string) : result (list string) :=
  match loader with
  | [] => Ok prediction
  | next :: loader' =>
      batch <- next ;;
      predictions <- _infer_batch self batch ;;
      for_batch self loader' (prediction ++ predictions)%list
  end.

Definition set_data (self : t) (data : DataFrame) : t :=
  mk (_model_name self) (TaskDataset.mk data) (_max_length self) (_batch_size self)
    (_device self) (_model self) (_tokenizer self).

(** [infer_dataset]: the outcome and the pipeline afterwards; the
    table behind the dataset is changed by the assignment of the
    column. *)
Definition infer_dataset (self : t) : result DataFrame * t :=
  match Torch.DataLoader TaskDataset.__len__ TaskDataset.__getitem__
          (_dataset self) (_batch_size self) with
  | Raise e => (Raise e, self)
  | Ok loader =>
      match for_batch self loader [] with
      | Raise e => (Raise e, self)
      | Ok prediction =>
          match setitem "predictions" (map Text prediction)
                  (TaskDataset.data (_dataset self)) with
          | Raise e => (Raise e, self)
          | Ok data' =>
              let self' := set_data self data' in
              (getitem_list ["target"; "predictions"]
                 (TaskDataset.data (_dataset self')), self')
          end
      end
  end.

End Transformers.

Arguments mkTokenizer {BatchEncoding Generated} _ _.
Arguments call {BatchEncoding Generated} _ _ _ _.
Arguments batch_decode {BatchEncoding Generated} _ _ _.
Arguments mkModel {BatchEncoding Generated} _.
Arguments generate {BatchEncoding Generated} _ _ _.
Arguments mk {BatchEncoding Generated} _ _ _ _ _ _ _.
Arguments _model_name {BatchEncoding Generated} _.
Arguments _dataset {BatchEncoding Generated} _.
Arguments _max_length {BatchEncoding Generated} _.
Arguments _batch_size {BatchEncoding Generated} _.
Arguments _device {BatchEncoding Generated} _.
Arguments _model {BatchEncoding Generated} _.
Arguments _tokenizer {BatchEncoding Generated} _.
Arguments _infer_batch {BatchEncoding Generated} self sample_batch.
Arguments infer_sample {BatchEncoding Generated} self sample.
Arguments for_batch {BatchEncoding Generated} self loader prediction.
Arguments set_data {BatchEncoding Generated} self data.
Arguments infer_dataset {BatchEncoding Generated} self.

(** The constructor.  [AutoModelForCausalLM.from_pretrained] and
    [AutoTokenizer.from_pretrained] are parameters, and so is the
    assignment [tokenizer.pad_token = tokenizer.eos_token], which gives
    the tokenizer as it is afterwards. *)
Definition __init__ {BatchEncoding Generated : Type}
    (model_from_pretrained : string -> result (Model BatchEncoding Generated))
    (tokenizer_from_pretrained : string -> result (Tokenizer BatchEncoding Generated))
    (pad_with_eos : Tokenizer BatchEncoding Generated -> Tokenizer BatchEncoding Generated)
    (model_name : string) (dataset : TaskDataset.t) (max_length batch_size : Z)
    (device : string) : result (t BatchEncoding Generated) :=
  model <- model_from_pretrained model_name ;;
  tokenizer <- tokenizer_from_pretrained model_name ;;
  Ok (mk model_name dataset max_length batch_size device (Some model)
        (pad_with_eos tokenizer)).

End LLMPipeline.

(** *** TaskEvaluator *)

Module TaskEvaluator.

(** Modelled from the spec: the enumeration [core_utils.llm.metrics.Metrics]
    is not part of the sources; the spec calls it an enumerated set of
    metric identifiers, each resolved to a scorer by name, with at
    least [bleu] and [rouge].  The source reads only the [value] of a
    member, so a member is represented by that value. *)
Record Metrics : Type := mkMetrics { value : string }.

Section Evaluate.

(** The scalar a scorer reports. *)
Variable Score : Type.

(** [scorer.compute(references=..., predictions=...)]. *)
Definition Scorer : Type := Series -> Series -> result (gmap string Score).

(** [pd.read_csv(path)] and [evaluate.load(name)]. *)
Variable read_csv : string -> result DataFrame.
Variable load : string -> result Scorer.

Record t : Type := mk {
  _data_path : string;
  _metrics : list Metrics
}.

(** The loop [for metric in self._metrics] on the dict [metrics]. *)
Fixpoint for_metric (data : DataFrame) (todo : list Metrics)
    (metrics : gmap string (option Score)) : result (gmap string (option Score)) :=
  match todo with
  | [] => Ok metrics
  | metric :: todo' =>
      if String.eqb (value metric) "bleu" then
        scorer <- load (value metric) ;;
        references <- getitem "target" data ;;
        predictions <- getitem "predictions" data ;;
        bleu_score <- scorer references predictions ;;
        for_metric data todo' (<["bleu" := bleu_score !! "bleu"]> metrics)
      else if String.eqb (value metric) "rouge" then
        scorer <- load (value metric) ;;
        references <- getitem "target" data ;;
        predictions <- getitem "predictions" data ;;
        rouge_score <- scorer references predictions ;;
        for_metric data todo' (<["rouge" := rouge_score !! "rougeL"]> metrics)
      else for_metric data todo' metrics
  end.

Definition run (self : t) : result (gmap string (option Score)) :=
  csv <- read_csv (_data_path self) ;;
  data <- drop ["Unnamed: 0"] csv ;;
  for_metric data (_metrics self) ∅.

End Evaluate.

Arguments run {Score} read_csv load self.
Arguments for_metric {Score} load data todo metrics.

End TaskEvaluator.

(** ** Vocabulary of the statements *)

Global Instance cell_eq_dec : EqDecision cell.
Proof. solve_decision. Defined.

(** The two arguments that [transform] passes to [rename] and [drop]. *)
Definition renaming : list (string * string) :=
  [("instruction", "question"); ("output", "target")].

Definition kept (k : string) : bool := negb (existsb (String.eqb k) ["input"; "text"]).

(** An empty cell is a missing value or the empty text; a row is complete
    when it has no empty cell. *)
Definition is_empty (x : cell) : Prop := x = NA \/ x = Text "".

Global Instance is_empty_dec (x : cell) : Decision (is_empty x).
Proof. unfold is_empty. apply _. Defined.

Definition complete (r : list cell) : Prop := Forall (fun x => ~ is_empty x) r.

Definition is_text (x : cell) : Prop := exists s, x = Text s.

(** What [replace("", pd.NA)] does to a cell. *)
Definition blank_to_na (x : cell) : cell := if cell_eqb x (Text "") then NA else x.

(** The instruction cells of the complete rows, in row order. *)
Definition complete_instructions (df : DataFrame) : list cell :=
  map (fun r => default NA (row_get (columns df) r.2 "instruction"))
    (filter (fun r => complete r.2) (rows df)).

(** The example table of the spec. *)
Definition example_raw : DataFrame :=
  of_rows ["instruction"; "input"; "output"; "text"]
    [[Text "Explain X"; Text ""; Text "X is Y"; Text "..."]].

(** A table with a duplicate row, an empty text and a missing value. *)
Definition example_mixed : DataFrame :=
  of_rows ["instruction"; "input"; "output"; "text"]
    [[Text "Explain X"; Text ""; Text "X is Y"; Text "..."];
     [Text "Say hi"; Text "in"; Text "hi"; Text "t"];
     [Text "Say hi"; Text "in"; Text "hi"; Text "t"];
     [Text "Say hello there"; Text "in"; NA; Text "t"];
     [Text "Sayonara"; Text "in"; Text "hi"; Text "t"]].

(** The decoded output of the language model on a batch of texts, as
    [_infer_batch] obtains it: tokenize with padding and truncation,
    generate up to [_max_length], decode skipping special tokens. *)
Definition decoded {BatchEncoding Generated : Type}
    (self : LLMPipeline.t BatchEncoding Generated)
    (model : LLMPipeline.Model BatchEncoding Generated) (texts : list string) : list string :=
  LLMPipeline.batch_decode (LLMPipeline._tokenizer self)
    (LLMPipeline.generate model
       (LLMPipeline.call (LLMPipeline._tokenizer self) texts true true)
       (LLMPipeline._max_length self))
    true.

(** The model gives one decoded text for each text of a batch. *)
Definition one_per_text {BatchEncoding Generated : Type}
    (self : LLMPipeline.t BatchEncoding Generated)
    (model : LLMPipeline.Model BatchEncoding Generated) : Prop :=
  forall texts, length (decoded self model texts) = length texts.

(** What the batched path returns for a batch of question texts: every
    decoded text without its first [len(question) + 1] characters. *)
Definition answers {BatchEncoding Generated : Type}
    (self : LLMPipeline.t BatchEncoding Generated)
    (model : LLMPipeline.Model BatchEncoding Generated) (questions : list string)
  : list string :=
  zip_with (fun q p => slice_from (Py.len q + 1) p) questions (decoded self model questions).

(** A table whose question and target columns hold the texts [samples],
    row by row. *)
Definition text_dataset (data : DataFrame) (samples : list (string * string)) : Prop :=
  wf data /\ "question" ∈ columns data /\ "target" ∈ columns data /\
  Forall2 (fun r s => row_get (columns data) r.2 "question" = Some (Text s.1) /\
                      row_get (columns data) r.2 "target" = Some (Text s.2))
    (rows data) samples.

(** The batched path on batches of question texts alone. *)
Fixpoint predict_batches {BatchEncoding Generated : Type}
    (self : LLMPipeline.t BatchEncoding Generated)
    (batches : list (list string)) (prediction : list string) : result (list string) :=
  match batches with
  | [] => Ok prediction
  | questions :: batches' =>
      predictions <- LLMPipeline._infer_batch self [map Text questions] ;;
      predict_batches self batches' (prediction ++ predictions)%list
  end.

(** A clean table of two rows. *)
Definition example_clean : DataFrame :=
  of_rows ["question"; "target"]
    [[Text "Hi"; Text "a long target"]; [Text "Explain X"; Text "X is Y"]].

(** A toy tokenizer and model: the tokenizer records how many padding
    tokens a text gets (the difference to the longest text of the
    batch), the model echoes the prompt and answers after one blank,
    with an answer that depends on the prompt being padded or not. *)
Definition toy_tokenizer : LLMPipeline.Tokenizer (list (string * nat)) (list string) :=
  LLMPipeline.mkTokenizer
    (fun texts padding truncation =>
       map (fun t => (t, if padding
                         then foldr Nat.max 0 (map String.length texts) - String.length t
                         else 0)) texts)
    (fun output skip_special_tokens => output).

Definition toy_model : LLMPipeline.Model (list (string * nat)) (list string) :=
  LLMPipeline.mkModel
    (fun tokens max_length =>
       map (fun t => t.1 ++ " " ++ (if (t.2 =? 0)%nat then "yes" else "no")) tokens).

Definition toy_pipeline (data : DataFrame) (batch_size : Z)
  : LLMPipeline.t (list (string * nat)) (list string) :=
  LLMPipeline.mk "toy" (TaskDataset.mk data) 16 batch_size "cpu" (Some toy_model) toy_tokenizer.

(** The questions of [example_clean] with other targets. *)
Definition example_clean_other : DataFrame :=
  of_rows ["question"; "target"]
    [[Text "Hi"; Text "t"]; [Text "Explain X"; Text "another target"]].

(** A clean table of one row, the first row of [example_clean]. *)
Definition example_single : DataFrame :=
  of_rows ["question"; "target"] [[Text "Hi"; Text "a long target"]].

(** A metric identifier is recognised when its value is bleu or rouge. *)
Definition recognised (metric : TaskEvaluator.Metrics) : bool :=
  String.eqb (TaskEvaluator.value metric) "bleu"
  || String.eqb (TaskEvaluator.value metric) "rouge".

Definition requested (name : string) (metrics : list TaskEvaluator.Metrics) : bool :=
  existsb (fun metric => String.eqb (TaskEvaluator.value metric) name) metrics.

(** A persisted prediction table as [read_csv] returns it, and toy
    scorers that count the rows where prediction and target agree. *)
Definition example_csv : DataFrame :=
  of_rows ["Unnamed: 0"; "target"; "predictions"]
    [[Num 0; Text "a long target"; Text "yes"]; [Num 1; Text "X is Y"; Text "X is Y"]].

Definition toy_read_csv (path : string) : result DataFrame :=
  if String.eqb path "predictions.csv" then Ok example_csv
  else Raise (LibraryError "FileNotFoundError").

Definition toy_matches (references predictions : Series) : nat :=
  length (filter (fun p => p.1 = p.2) (combine references predictions)).

Definition toy_load (name : string) : result (TaskEvaluator.Scorer nat) :=
  if String.eqb name "bleu" then
    Ok (fun references predictions =>
          Ok (<["bleu" := toy_matches references predictions]>
              (<["length_ratio" := 1]> ∅)))
  else if String.eqb name "rouge" then
    Ok (fun references predictions =>
          Ok (<["rouge1" := 0]>
              (<["rougeL" := 10 * toy_matches references predictions]> ∅)))
  else Raise (LibraryError "FileNotFoundError").

(** A toy registry: the state counts the fetches made; one name gives a
    frame, one gives something that is not a frame, the others fail. *)
Definition toy_load_dataset (name split : string) (fetches : nat)
  : result string * nat :=
  (if String.eqb split "train"
   then if String.eqb name "tables" then Ok "table"
        else if String.eqb name "streams" then Ok "stream"
        else Raise (LibraryError "DatasetNotFoundError")
   else Raise (LibraryError "split"),
   S fetches).

Definition toy_to_pandas (dataset : string) : result (@RawDataImporter.pyobject unit) :=
  if String.eqb dataset "table" then Ok (RawDataImporter.IsDataFrame example_raw)
  else Ok (RawDataImporter.NotDataFrame tt).

(** The rows of [example_mixed] in another order, each with its label. *)
Definition example_mixed_reordered : DataFrame :=
  mkDataFrame ["instruction"; "input"; "output"; "text"]
    [(4%Z, [Text "Sayonara"; Text "in"; Text "hi"; Text "t"]);
     (1%Z, [Text "Say hi"; Text "in"; Text "hi"; Text "t"]);
     (0%Z, [Text "Explain X"; Text ""; Text "X is Y"; Text "..."]);
     (3%Z, [Text "Say hello there"; Text "in"; NA; Text "t"]);
     (2%Z, [Text "Say hi"; Text "in"; Text "hi"; Text "t"])].

(** A clean table without rows, and a toy pipeline without a model. *)
Definition example_no_rows : DataFrame := mkDataFrame ["question"; "target"] [].

Definition toy_pipeline_without_model (data : DataFrame) (batch_size : Z)
  : LLMPipeline.t (list (string * nat)) (list string) :=
  LLMPipeline.mk "toy" (TaskDataset.mk data) 16 batch_size "cpu" None toy_tokenizer.

(** A toy model registry with one model. *)
Definition toy_model_from_pretrained (name : string)
  : result (LLMPipeline.Model (list (string * nat)) (list string)) :=
  if String.eqb name "toy" then Ok toy_model else Raise (LibraryError "OSError").

Definition toy_tokenizer_from_pretrained (name : string)
  : result (LLMPipeline.Tokenizer (list (string * nat)) (list string)) :=
  if String.eqb name "toy" then Ok toy_tokenizer else Raise (LibraryError "OSError").

(** A toy model that echoes the prompt and nothing more. *)
Definition echo_model : LLMPipeline.Model (list (string * nat)) (list string) :=
  LLMPipeline.mkModel (fun tokens max_length => map fst tokens).

Definition echo_pipeline (data : DataFrame) (batch_size : Z)
  : LLMPipeline.t (list (string * nat)) (list string) :=
  LLMPipeline.mk "echo" (TaskDataset.mk data) 16 batch_size "cpu" (Some echo_model)
    toy_tokenizer.

(** The table that [transform] stores for [example_mixed]: the row with
    the missing output is kept, with a missing target. *)
Definition example_mixed_clean : DataFrame :=
  of_rows ["question"; "target"]
    [[Text "Explain X"; Text "X is Y"];
     [Text "Say hi"; Text "hi"];
     [Text "Say hi"; Text "hi"];
     [Text "Say hello there"; NA];
     [Text "Sayonara"; Text "hi"]].

(** The question of [example_single] with a missing target. *)
Definition example_missing_target : DataFrame :=
  of_rows ["question"; "target"] [[Text "Hi"; NA]].

(** * Properties *)

(** ** Frames *)

Section FrameFacts.

Lemma has_column_true (c : string) (df : DataFrame) :
  has_column c df = true <-> c ∈ columns df.
Proof.
  unfold has_column. rewrite existsb_exists. split.
  - intros (k & Hk & Heq). apply String.eqb_eq in Heq. subst k.
    by apply list_elem_of_In.
  - intros Hc. exists c. split; [by apply list_elem_of_In | apply String.eqb_refl].
Qed.

Lemma has_column_false (c : string) (df : DataFrame) :
  has_column c df = false <-> c ∉ columns df.
Proof.
  rewrite <- has_column_true. destruct (has_column c df); intuition congruence.
Qed.

Lemma existsb_eqb_true (k : string) (labels : list string) :
  existsb (String.eqb k) labels = true <-> k ∈ labels.
Proof.
  rewrite existsb_exists. split.
  - intros (l & Hl & Heq). apply String.eqb_eq in Heq. subst l.
    by apply list_elem_of_In.
  - intros Hk. exists k. split; [by apply list_elem_of_In | apply String.eqb_refl].
Qed.

(** Dropping labels that all exist succeeds. *)
Lemma drop_present (labels : list string) (df : DataFrame) :
  Forall (fun l => l ∈ columns df) labels ->
  drop labels df =
    Ok (mkDataFrame
          (filter (fun k => negb (existsb (String.eqb k) labels) = true) (columns df))
          (map (fun r => (r.1, row_keep (fun k => negb (existsb (String.eqb k) labels))
                                 (columns df) r.2)) (rows df))).
Proof.
  intros Hall. unfold drop.
  replace (filter (fun l => has_column l df = false) labels) with (@nil string); [done |].
  symmetry. induction Hall as [| l ls Hl _ IH]; [done |].
  rewrite filter_cons_False; [exact IH |].
  apply has_column_true in Hl. by rewrite Hl.
Qed.

(** Taking one label out of distinct labels shortens them by one. *)
Lemma length_filter_ne (x : string) (l : list string) :
  NoDup l -> x ∈ l -> length (filter (fun k => k ≠ x) l) + 1 = length l.
Proof.
  induction 1 as [| y l Hy Hnd IH]; intros Hx.
  - by apply elem_of_nil in Hx.
  - destruct (decide (y = x)) as [-> | Hne].
    + rewrite filter_cons_False by (intros H; by apply H).
      replace (filter (fun k => k ≠ x) l) with l; [simpl; lia |].
      clear IH Hnd Hx. induction l as [| z l IHl]; [done |].
      apply not_elem_of_cons in Hy as [Hzx Hl].
      rewrite filter_cons_True by done. f_equal. by apply IHl.
    + rewrite filter_cons_True by done. simpl.
      apply elem_of_cons in Hx as [-> | Hx]; [done |].
      specialize (IH Hx). lia.
Qed.

Lemma length_filter_drop2 (x y : string) (l : list string) :
  NoDup l -> x ∈ l -> y ∈ l -> x ≠ y ->
  length (filter (fun k => negb (existsb (String.eqb k) [x; y]) = true) l) + 2 = length l.
Proof.
  intros Hnd Hx Hy Hxy.
  rewrite (list_filter_iff _ (fun k => k ≠ y ∧ k ≠ x)).
  - rewrite <- list_filter_filter.
    pose proof (length_filter_ne x l Hnd Hx) as H1.
    assert (length (filter (fun k => k ≠ y) (filter (fun k => k ≠ x) l)) + 1
            = length (filter (fun k => k ≠ x) l)) as H2.
    { apply length_filter_ne.
      - by apply NoDup_filter.
      - apply list_elem_of_filter. split; [congruence | done]. }
    lia.
  - intros k. rewrite negb_true_iff, <- not_true_iff_false, existsb_eqb_true.
    rewrite !elem_of_cons, elem_of_nil. intuition congruence.
Qed.

(** A kept cell is found in the projected row under its new label, when
    no other kept label is renamed to the same one. *)
Lemma row_get_keep_rename (keep : string -> bool) (f : string -> string)
    (cols : list string) (r : list cell) (c : string) :
  keep c = true ->
  (forall k, k ∈ cols -> keep k = true -> f k = f c -> k = c) ->
  row_get (map f (filter (fun k => keep k = true) cols)) (row_keep keep cols r) (f c)
  = row_get cols r c.
Proof.
  intros Hc. revert r. induction cols as [| k cols IH]; intros r Hinj; [done |].
  destruct r as [| x r].
  - simpl. rewrite filter_cons. case_decide; simpl; [done |].
    destruct (map f (filter (fun k0 => keep k0 = true) cols)); done.
  - simpl. rewrite filter_cons. destruct (keep k) eqn:Hk.
    + rewrite decide_True by done. simpl.
      destruct (String.eqb_spec c k) as [-> | Hne].
      * by rewrite String.eqb_refl.
      * destruct (String.eqb_spec (f c) (f k)) as [Heq | _].
        -- exfalso. apply Hne. symmetry. apply Hinj; [apply elem_of_cons; by left | done | done].
        -- apply IH. intros k' Hk'. apply Hinj. apply elem_of_cons. by right.
    + rewrite decide_False by done.
      destruct (String.eqb_spec c k) as [-> | Hne]; [congruence |].
      apply IH. intros k' Hk'. apply Hinj. apply elem_of_cons. by right.
Qed.

End FrameFacts.

(** ** RawDataPreprocessor.transform *)

Section Transform.

Import RawDataPreprocessor.

Lemma kept_true (k : string) : kept k = true <-> k ≠ "input" /\ k ≠ "text".
Proof.
  unfold kept. rewrite negb_true_iff, <- not_true_iff_false, existsb_eqb_true.
  rewrite !elem_of_cons, elem_of_nil. intuition congruence.
Qed.

Lemma rename_cases (k : string) :
  (k = "instruction" /\ rename_label renaming k = "question") \/
  (k = "output" /\ rename_label renaming k = "target") \/
  (k ≠ "instruction" /\ k ≠ "output" /\ rename_label renaming k = k).
Proof.
  unfold renaming. simpl.
  destruct (String.eqb_spec k "instruction") as [-> | H1]; [by left |].
  destruct (String.eqb_spec k "output") as [-> | H2]; [right; by left |].
  right; right; done.
Qed.

Lemma row_keep_sublist (keep : string -> bool) (cols : list string) (r : list cell) :
  row_keep keep cols r `sublist_of` r.
Proof.
  revert r. induction cols as [| k cols IH]; intros [| x r]; simpl;
    try apply sublist_nil_l.
  destruct (keep k); [apply sublist_skip | apply sublist_cons]; apply IH.
Qed.

Lemma length_row_keep (keep : string -> bool) (cols : list string) (r : list cell) :
  length r = length cols ->
  length (row_keep keep cols r) = length (filter (fun k => keep k = true) cols).
Proof.
  revert r. induction cols as [| k cols IH]; intros [| x r] Hlen; simpl in *; try done.
  rewrite filter_cons. destruct (keep k).
  - rewrite decide_True by done. simpl. f_equal. apply IH. lia.
  - rewrite decide_False by done. apply IH. lia.
Qed.

Lemma transform_eq (self : t) :
  "input" ∈ columns (_raw_data self) -> "text" ∈ columns (_raw_data self) ->
  transform self =
    Ok (mk (_raw_data self)
          (Some (mkDataFrame
                   (map (rename_label renaming)
                      (filter (fun k => kept k = true) (columns (_raw_data self))))
                   (map (fun r => (r.1, row_keep kept (columns (_raw_data self)) r.2))
                      (rows (_raw_data self)))))).
Proof.
  intros Hi Ht. unfold transform.
  rewrite (drop_present ["input"; "text"]) by (repeat constructor; done).
  reflexivity.
Qed.

(** C1. On a raw table with the columns instruction, input, output and
    text, [transform] succeeds and stores a table with two columns
    less, where question and target are present and instruction,
    output, input and text are absent.  No row is filtered out: the
    stored table has the rows of the raw table in the same order (the
    same index labels), every row being the raw row without two of its
    cells, and a kept cell is found under its (renamed) label. *)
Theorem transform_pure_projection (self : t) :
  wf (_raw_data self) ->
  "instruction" ∈ columns (_raw_data self) ->
  "input" ∈ columns (_raw_data self) ->
  "output" ∈ columns (_raw_data self) ->
  "text" ∈ columns (_raw_data self) ->
  exists out : DataFrame,
    transform self = Ok (mk (_raw_data self) (Some out)) /\
    length (columns out) + 2 = length (columns (_raw_data self)) /\
    (("question" ∈ columns out) /\ ("target" ∈ columns out)) /\
    (("instruction" ∉ columns out) /\ ("output" ∉ columns out) /\
     ("input" ∉ columns out) /\ ("text" ∉ columns out)) /\
    Forall2 (fun o r => o.1 = r.1 /\ o.2 `sublist_of` r.2 /\ length o.2 + 2 = length r.2)
      (rows out) (rows (_raw_data self)) /\
    (forall (i : nat) (c : string),
        c ∈ columns (_raw_data self) -> c ≠ "input" -> c ≠ "text" ->
        "question" ∉ columns (_raw_data self) -> "target" ∉ columns (_raw_data self) ->
        cell_at out i (rename_label renaming c) = cell_at (_raw_data self) i c).
Proof.
  intros [Hnd Hrows] Hins Hinp Hout Htxt.
  rewrite transform_eq by done.
  eexists. split; [reflexivity |]. simpl.
  assert (length (filter (fun k => kept k = true) (columns (_raw_data self))) + 2
          = length (columns (_raw_data self))) as Hlen.
  { by apply length_filter_drop2. }
  split; [by rewrite length_map |].
  split; [| split; [| split]].
  - split.
    + apply (list_elem_of_fmap_2' _ _ "instruction"); [| done].
      apply list_elem_of_filter. split; [done | done].
    + apply (list_elem_of_fmap_2' _ _ "output"); [| done].
      apply list_elem_of_filter. split; [done | done].
  - assert (forall c, c ∈ ["instruction"; "output"; "input"; "text"] ->
              c ∉ map (rename_label renaming)
                    (filter (fun k => kept k = true) (columns (_raw_data self)))) as Habs.
    { intros c Hc Hin. apply list_elem_of_fmap_1 in Hin as (k & Hk & Hkin).
      apply list_elem_of_filter in Hkin as [Hkept _]. apply kept_true in Hkept.
      rewrite !elem_of_cons, elem_of_nil in Hc.
      destruct (rename_cases k) as [[-> E] | [[-> E] | (? & ? & E)]];
        rewrite E in Hk; subst c; intuition congruence. }
    repeat split; apply Habs; rewrite !elem_of_cons; tauto.
  - apply Forall2_fmap_l, Forall_Forall2_diag.
    eapply Forall_impl; [exact Hrows |]. intros r Hr. simpl in *.
    split; [done |]. split; [apply row_keep_sublist |].
    rewrite length_row_keep by done. lia.
  - intros i c Hc Hci Hct Hq Ht. unfold cell_at. simpl.
    change (map ?f ?l !! i) with ((f <$> l) !! i).
    rewrite list_lookup_fmap. destruct (rows (_raw_data self) !! i) as [r |]; [| done].
    simpl. apply (row_get_keep_rename kept (rename_label renaming)); [by apply kept_true |].
    intros k Hk _ Heq.
    destruct (rename_cases k) as [[-> Ek] | [[-> Ek] | (? & ? & Ek)]];
      destruct (rename_cases c) as [[-> Ec] | [[-> Ec] | (? & ? & Ec)]];
      rewrite ?Ek, ?Ec in Heq; try done; subst; done.
Qed.

End Transform.

(** ** RawDataPreprocessor.analyze *)

Section Analyze.

Import RawDataPreprocessor.

Lemma cell_eqb_eq (a b : cell) : cell_eqb a b = true <-> a = b.
Proof.
  destruct a, b; simpl; try (split; congruence).
  - rewrite String.eqb_eq. split; congruence.
  - rewrite Z.eqb_eq. split; congruence.
Qed.

Lemma blank_to_na_isna (x : cell) : isna (blank_to_na x) = true <-> is_empty x.
Proof.
  unfold blank_to_na, is_empty.
  destruct (cell_eqb x (Text "")) eqn:E.
  - apply cell_eqb_eq in E. subst. simpl. intuition.
  - assert (x ≠ Text "") by (intros ->; by rewrite (proj2 (cell_eqb_eq _ _)) in E).
    destruct x; simpl; intuition congruence.
Qed.

Lemma blank_to_na_id (x : cell) : ~ is_empty x -> blank_to_na x = x.
Proof.
  intros Hx. unfold blank_to_na. destruct (cell_eqb x (Text "")) eqn:E; [| done].
  apply cell_eqb_eq in E. destruct Hx. by right.
Qed.

Lemma complete_blank_to_na (r : list cell) :
  forallb (fun x => negb (isna x)) (map blank_to_na r) = true <-> complete r.
Proof.
  unfold complete. induction r as [| x r IH]; simpl.
  - split; [constructor | done].
  - rewrite andb_true_iff, IH, negb_true_iff, <- not_true_iff_false, blank_to_na_isna.
    split; [intros [? ?]; by constructor | by inversion 1].
Qed.

Lemma count_blank_to_na (r : list cell) :
  length (filter (fun x => isna x = true) (map blank_to_na r))
  = length (filter is_empty r).
Proof.
  induction r as [| x r IH]; [done |]. simpl map. rewrite !filter_cons.
  destruct (decide (is_empty x)) as [He | He].
  - rewrite decide_True by by apply blank_to_na_isna. simpl. by rewrite IH.
  - rewrite decide_False by by rewrite blank_to_na_isna. done.
Qed.

Lemma map_imap_const {A B C : Type} (g : B -> C) (f : nat -> A -> B) (h : A -> C)
    (l : list A) :
  (forall i x, x ∈ l -> g (f i x) = h x) -> map g (imap f l) = map h l.
Proof.
  revert f. induction l as [| a l IH]; intros f Hgf; [done |].
  simpl. f_equal.
  - apply Hgf, elem_of_cons. by left.
  - apply IH. intros i x Hx. apply (Hgf (S i)), elem_of_cons. by right.
Qed.

Lemma row_get_map (f : cell -> cell) (cols : list string) (r : list cell) (c : string) :
  row_get cols (map f r) c = f <$> row_get cols r c.
Proof.
  revert r. induction cols as [| k cols IH]; intros [| x r]; simpl; try done.
  destruct (String.eqb c k); [done | apply IH].
Qed.

Lemma row_get_elem_of (cols : list string) (r : list cell) (c : string) (x : cell) :
  row_get cols r c = Some x -> x ∈ r.
Proof.
  revert r. induction cols as [| k cols IH]; intros [| y r]; simpl; try done.
  destruct (String.eqb c k).
  - intros [= ->]. apply elem_of_cons. by left.
  - intros H. apply elem_of_cons. right. by apply IH.
Qed.

Lemma row_get_is_Some (cols : list string) (r : list cell) (c : string) :
  c ∈ cols -> length r = length cols -> is_Some (row_get cols r c).
Proof.
  revert r. induction cols as [| k cols IH]; intros [| y r] Hc Hlen; simpl in *;
    try done.
  - by apply elem_of_nil in Hc.
  - destruct (String.eqb_spec c k) as [-> | Hne]; [by eexists |].
    apply IH; [| lia]. apply elem_of_cons in Hc as [? | ?]; done.
Qed.

(** The series the two length lines of [analyze] read. *)
Lemma without_empty_rows_instruction (raw : DataFrame) :
  "instruction" ∈ columns raw ->
  ~ ("index" ∈ columns raw /\ "level_0" ∈ columns raw) ->
  Forall (fun r => length r.2 = length (columns raw)) (rows raw) ->
  exists without_empty_rows,
    reset_index (dropna (replace (Text "") NA raw)) = Ok without_empty_rows /\
    getitem "instruction" without_empty_rows = Ok (complete_instructions raw).
Proof.
  intros Hins Hidx Hrows. unfold reset_index.
  set (clean := dropna (replace (Text "") NA raw)).
  assert (columns clean = columns raw) as Hcols by done.
  assert (forall c, has_column c clean = has_column c raw) as Hhas by done.
  assert (rows clean
          = map (fun r => (r.1, map blank_to_na r.2)) (filter (fun r => complete r.2) (rows raw)))
    as Hclean.
  { unfold clean, dropna, replace. simpl. clear.
    induction (rows raw) as [| r rs IH]; [done |]. simpl map. rewrite !filter_cons.
    destruct (decide (complete r.2)) as [Hc | Hc].
    - rewrite decide_True by by apply complete_blank_to_na. simpl. by rewrite IH.
    - rewrite decide_False by (simpl; by rewrite complete_blank_to_na). done. }
  clearbody clean.
  set (name := if has_column "index" clean then "level_0" else "index").
  assert (has_column name clean = false /\ name ≠ "instruction") as [Hfree Hname].
  { unfold name. rewrite !Hhas. destruct (has_column "index" raw) eqn:E.
    - split; [| done]. apply has_column_false. intros H. apply Hidx.
      split; [by apply has_column_true | done].
    - rewrite E. done. }
  rewrite Hfree. eexists. split; [reflexivity |].
  unfold getitem, has_column. simpl columns.
  assert (existsb (String.eqb "instruction") (name :: columns clean) = true) as ->.
  { apply existsb_eqb_true, elem_of_cons. right. by rewrite Hcols. }
  f_equal. simpl rows. unfold complete_instructions.
  rewrite Hclean, Hcols. clear Hclean.
  assert (Forall (fun r => complete r.2 /\ length r.2 = length (columns raw))
            (filter (fun r => complete r.2) (rows raw))) as Hall.
  { apply Forall_forall. intros r Hr%list_elem_of_filter. destruct Hr as [Hc Hr].
    split; [done |]. by apply (proj1 (Forall_forall _ _) Hrows). }
  rewrite (map_imap_const _ _
             (fun r => default NA (row_get (columns raw) r.2 "instruction"))).
  - rewrite map_map. simpl.
    induction Hall as [| r rs [Hc Hlen] _ IH]; [done |].
    simpl. f_equal; [| apply IH].
    rewrite row_get_map.
    destruct (row_get_is_Some (columns raw) r.2 "instruction" Hins Hlen) as [x Hx].
    rewrite Hx. simpl. apply blank_to_na_id.
    apply (proj1 (Forall_forall _ _) Hc). by eapply row_get_elem_of.
  - intros i r _. simpl.
    by destruct (String.eqb_spec "instruction" name) as [E | _]; [destruct Hname |].
Qed.

Lemma elem_of_complete_instructions (raw : DataFrame) (x : cell) :
  x ∈ complete_instructions raw <->
  exists r, r ∈ rows raw /\ complete r.2 /\
            x = default NA (row_get (columns raw) r.2 "instruction").
Proof.
  unfold complete_instructions.
  change (map ?f ?l) with (f <$> l). rewrite list_elem_of_fmap.
  split.
  - intros (r & -> & Hr%list_elem_of_filter). exists r. tauto.
  - intros (r & Hr & Hc & ->). exists r. split; [done |].
    apply list_elem_of_filter. tauto.
Qed.

(** [min(..., key=len)] and [max(..., key=len)] on a series of text. *)
Lemma min_loop_spec (l : list cell) :
  Forall is_text l ->
  forall best kbest, cell_len best = Ok kbest ->
  exists x m, min_loop best kbest l = Ok x /\ cell_len x = Ok m /\
              (x = best \/ x ∈ l) /\ m <= kbest /\
              Forall (fun y => forall k, cell_len y = Ok k -> m <= k) l.
Proof.
  induction 1 as [| y l [s ->] _ IH]; intros best kbest Hbest.
  - exists best, kbest. simpl. repeat split; [done | by left | lia | constructor].
  - simpl. destruct (Nat.ltb_spec (Py.len s) kbest) as [Hlt | Hge].
    + destruct (IH (Text s) (Py.len s) eq_refl) as (x & m & Hx & Hm & Hin & Hle & Hall).
      exists x, m. repeat split; try done.
      * right. apply elem_of_cons. destruct Hin as [-> | ?]; [by left | by right].
      * lia.
      * constructor; [| done]. simpl. intros k [= <-]. done.
    + destruct (IH best kbest Hbest) as (x & m & Hx & Hm & Hin & Hle & Hall).
      exists x, m. repeat split; try done.
      * destruct Hin as [-> | ?]; [by left |]. right. apply elem_of_cons. by right.
      * constructor; [| done]. simpl. intros k [= <-]. lia.
Qed.

Lemma max_loop_spec (l : list cell) :
  Forall is_text l ->
  forall best kbest, cell_len best = Ok kbest ->
  exists x m, max_loop best kbest l = Ok x /\ cell_len x = Ok m /\
              (x = best \/ x ∈ l) /\ kbest <= m /\
              Forall (fun y => forall k, cell_len y = Ok k -> k <= m) l.
Proof.
  induction 1 as [| y l [s ->] _ IH]; intros best kbest Hbest.
  - exists best, kbest. simpl. repeat split; [done | by left | lia | constructor].
  - simpl. destruct (Nat.ltb_spec kbest (Py.len s)) as [Hlt | Hge].
    + destruct (IH (Text s) (Py.len s) eq_refl) as (x & m & Hx & Hm & Hin & Hle & Hall).
      exists x, m. repeat split; try done.
      * right. apply elem_of_cons. destruct Hin as [-> | ?]; [by left | by right].
      * lia.
      * constructor; [| done]. simpl. intros k [= <-]. done.
    + destruct (IH best kbest Hbest) as (x & m & Hx & Hm & Hin & Hle & Hall).
      exists x, m. repeat split; try done.
      * destruct Hin as [-> | ?]; [by left |]. right. apply elem_of_cons. by right.
      * constructor; [| done]. simpl. intros k [= <-]. lia.
Qed.

Lemma min_key_len_spec (l : list cell) :
  Forall is_text l -> l ≠ [] ->
  exists x m, min_key_len l = Ok x /\ cell_len x = Ok m /\ x ∈ l /\
              Forall (fun y => forall k, cell_len y = Ok k -> m <= k) l.
Proof.
  intros Hall Hne. destruct Hall as [| y l [s ->] Hall]; [done |]. simpl.
  destruct (min_loop_spec l Hall (Text s) (Py.len s) eq_refl)
    as (x & m & Hx & Hm & Hin & Hle & Hmin).
  exists x, m. repeat split; try done.
  - apply elem_of_cons. destruct Hin as [-> | ?]; [by left | by right].
  - constructor; [| done]. simpl. intros k [= <-]. done.
Qed.

Lemma max_key_len_spec (l : list cell) :
  Forall is_text l -> l ≠ [] ->
  exists x m, max_key_len l = Ok x /\ cell_len x = Ok m /\ x ∈ l /\
              Forall (fun y => forall k, cell_len y = Ok k -> k <= m) l.
Proof.
  intros Hall Hne. destruct Hall as [| y l [s ->] Hall]; [done |]. simpl.
  destruct (max_loop_spec l Hall (Text s) (Py.len s) eq_refl)
    as (x & m & Hx & Hm & Hin & Hle & Hmax).
  exists x, m. repeat split; try done.
  - apply elem_of_cons. destruct Hin as [-> | ?]; [by left | by right].
  - constructor; [| done]. simpl. intros k [= <-]. done.
Qed.

(** Marked rows and distinct rows. *)
Lemma row_eqb_eq (r1 r2 : list cell) : row_eqb r1 r2 = true <-> r1 = r2.
Proof.
  unfold row_eqb. revert r2. induction r1 as [| x r1 IH]; intros [| y r2]; simpl.
  - done.
  - split; done.
  - split; done.
  - specialize (IH r2). rewrite andb_true_iff in IH.
    rewrite !andb_true_iff, cell_eqb_eq. split.
    + intros (Hlen & -> & Hall). f_equal. apply IH. done.
    + intros [= -> ->]. assert (r2 = r2) as H by done.
      apply IH in H as [? ?]. done.
Qed.

Lemma existsb_row_eqb (r : list cell) (seen : list (list cell)) :
  existsb (row_eqb r) seen = true <-> r ∈ seen.
Proof.
  rewrite existsb_exists. split.
  - intros (r' & Hin & ->%row_eqb_eq). by apply list_elem_of_In.
  - intros Hin. exists r. split; [by apply list_elem_of_In | by apply row_eqb_eq].
Qed.

Lemma length_remove_dups_snoc (seen : list (list cell)) (r : list cell) :
  length (remove_dups (seen ++ [r]))
  = if decide (r ∈ seen) then length (remove_dups seen) else S (length (remove_dups seen)).
Proof.
  destruct (decide (r ∈ seen)) as [Hin | Hnin].
  - apply Permutation_length, NoDup_Permutation; try apply NoDup_remove_dups.
    intros x. rewrite !elem_of_remove_dups, elem_of_app, list_elem_of_singleton.
    intuition congruence.
  - change (S (length (remove_dups seen))) with (length (r :: remove_dups seen)).
    apply Permutation_length, NoDup_Permutation.
    + apply NoDup_remove_dups.
    + constructor; [by rewrite elem_of_remove_dups | apply NoDup_remove_dups].
    + intros x. rewrite elem_of_cons, !elem_of_remove_dups, elem_of_app,
        list_elem_of_singleton. tauto.
Qed.

Lemma sum_duplicated_from (seen rs : list (list cell)) :
  sum (duplicated_from seen rs) + length (remove_dups (seen ++ rs))
  = length rs + length (remove_dups seen).
Proof.
  revert seen. induction rs as [| r rs IH]; intros seen.
  - rewrite app_nil_r. done.
  - simpl. specialize (IH (seen ++ [r])%list). rewrite <- app_assoc in IH. simpl in IH.
    rewrite length_remove_dups_snoc in IH.
    unfold sum in *. rewrite filter_cons.
    destruct (decide (r ∈ seen)) as [Hin | Hnin].
    + rewrite decide_True by by apply existsb_row_eqb. simpl. lia.
    + rewrite decide_False by by rewrite existsb_row_eqb. lia.
Qed.

Lemma sum_duplicated (df : DataFrame) :
  columns df ≠ [] ->
  sum (duplicated df) = length (rows df) - length (remove_dups (map snd (rows df))).
Proof.
  intros Hcols. unfold duplicated. destruct (columns df); [done |].
  pose proof (sum_duplicated_from [] (map snd (rows df))) as H.
  simpl in H. rewrite length_map in H. lia.
Qed.

Lemma isna_sum_sum_replace (df : DataFrame) :
  isna_sum_sum (replace (Text "") NA df)
  = list_sum (map (fun r => length (filter is_empty r.2)) (rows df)).
Proof.
  unfold isna_sum_sum, replace. simpl. rewrite map_map. f_equal.
  apply map_ext. intros r. simpl. apply count_blank_to_na.
Qed.

Lemma complete_instructions_text (raw : DataFrame) :
  Forall (fun r => length r.2 = length (columns raw)) (rows raw) ->
  "instruction" ∈ columns raw ->
  (forall r x, r ∈ rows raw -> complete r.2 ->
      row_get (columns raw) r.2 "instruction" = Some x -> is_text x) ->
  Forall is_text (complete_instructions raw).
Proof.
  intros Hrows Hins Htext. apply Forall_forall. intros x Hx.
  apply elem_of_complete_instructions in Hx as (r & Hr & Hc & ->).
  destruct (row_get_is_Some (columns raw) r.2 "instruction" Hins) as [y Hy].
  - by apply (proj1 (Forall_forall _ _) Hrows).
  - rewrite Hy. simpl. by eapply Htext.
Qed.

(** C2, amended.  On a raw table that has an instruction column, not
    both an index and a level_0 column, text in the instruction cell of
    every row without empty cells, and at least one such row, [analyze]
    returns a report with exactly six keys: the row count, the column
    count, the number of rows that repeat a row above them (rows minus
    distinct rows), the number of empty cells (missing or empty text),
    and the least and the greatest length in characters of the
    instruction among the rows without empty cells. *)
Theorem analyze_report (self : t) :
  wf (_raw_data self) ->
  "instruction" ∈ columns (_raw_data self) ->
  ~ ("index" ∈ columns (_raw_data self) /\ "level_0" ∈ columns (_raw_data self)) ->
  (forall r x, r ∈ rows (_raw_data self) -> complete r.2 ->
      row_get (columns (_raw_data self)) r.2 "instruction" = Some x -> is_text x) ->
  (exists r, r ∈ rows (_raw_data self) /\ complete r.2) ->
  exists (report : gmap string nat) (shortest longest : nat),
    analyze self = Ok report /\
    dom report = ({[ "dataset_number_of_samples"; "dataset_columns"; "dataset_duplicates";
                     "dataset_empty_rows"; "dataset_sample_min_len";
                     "dataset_sample_max_len" ]} : gset string) /\
    report !! "dataset_number_of_samples" = Some (length (rows (_raw_data self))) /\
    report !! "dataset_columns" = Some (length (columns (_raw_data self))) /\
    report !! "dataset_duplicates"
      = Some (length (rows (_raw_data self))
              - length (remove_dups (map snd (rows (_raw_data self))))) /\
    report !! "dataset_empty_rows"
      = Some (list_sum (map (fun r => length (filter is_empty r.2)) (rows (_raw_data self)))) /\
    report !! "dataset_sample_min_len" = Some shortest /\
    report !! "dataset_sample_max_len" = Some longest /\
    (exists r s, r ∈ rows (_raw_data self) /\ complete r.2 /\
                 row_get (columns (_raw_data self)) r.2 "instruction" = Some (Text s) /\
                 String.length s = shortest) /\
    (exists r s, r ∈ rows (_raw_data self) /\ complete r.2 /\
                 row_get (columns (_raw_data self)) r.2 "instruction" = Some (Text s) /\
                 String.length s = longest) /\
    (forall r s, r ∈ rows (_raw_data self) -> complete r.2 ->
                 row_get (columns (_raw_data self)) r.2 "instruction" = Some (Text s) ->
                 shortest <= String.length s <= longest).
Proof.
  intros [Hnd Hrows] Hins Hidx Htext (r0 & Hr0 & Hc0).
  set (raw := _raw_data self) in *.
  destruct (without_empty_rows_instruction raw Hins Hidx Hrows) as (w & Hw & Hget).
  pose proof (complete_instructions_text raw Hrows Hins Htext) as Hall.
  assert (complete_instructions raw ≠ []) as Hne.
  { intros E. assert (default NA (row_get (columns raw) r0.2 "instruction")
                      ∈ complete_instructions raw) as Hin.
    { apply elem_of_complete_instructions. by exists r0. }
    rewrite E in Hin. by apply elem_of_nil in Hin. }
  destruct (min_key_len_spec _ Hall Hne) as (x & mn & Hmin & Hlx & Hxin & Hlow).
  destruct (max_key_len_spec _ Hall Hne) as (y & mx & Hmax & Hly & Hyin & Hhigh).
  assert (forall z k, z ∈ complete_instructions raw -> cell_len z = Ok k ->
            exists r s, r ∈ rows raw /\ complete r.2 /\
                        row_get (columns raw) r.2 "instruction" = Some (Text s) /\
                        String.length s = k) as Hattained.
  { intros z k Hz Hk. apply elem_of_complete_instructions in Hz as (r & Hr & Hc & ->).
    destruct (row_get (columns raw) r.2 "instruction") as [[s | |] |] eqn:E;
      simpl in Hk; try done.
    exists r, s. repeat split; try done. by injection Hk. }
  eexists _, mn, mx. split.
  { unfold analyze. fold raw. rewrite Hw. simpl. rewrite Hget. simpl.
    rewrite Hmin. simpl. rewrite Hlx. simpl. rewrite Hmax. simpl. rewrite Hly. simpl.
    reflexivity. }
  split; [rewrite !dom_insert_L, dom_empty_L; set_solver |].
  split; [by simplify_map_eq |].
  split; [by simplify_map_eq |].
  split.
  { rewrite lookup_insert_ne, lookup_insert_ne, lookup_insert_eq by done.
    f_equal. apply sum_duplicated. intros E. rewrite E in Hins.
    by apply elem_of_nil in Hins. }
  split.
  { rewrite lookup_insert_ne, lookup_insert_ne, lookup_insert_ne, lookup_insert_eq
      by done.
    f_equal. apply isna_sum_sum_replace. }
  split; [by simplify_map_eq |].
  split; [by simplify_map_eq |].
  split; [by apply (Hattained x) |].
  split; [by apply (Hattained y) |].
  intros r s Hr Hc Hs.
  assert (Text s ∈ complete_instructions raw) as Hin.
  { apply elem_of_complete_instructions. exists r. by rewrite Hs. }
  split.
  - by apply (proj1 (Forall_forall _ _) Hlow (Text s) Hin).
  - by apply (proj1 (Forall_forall _ _) Hhigh (Text s) Hin).
Qed.

(** C2 as stated fails: the example table of the spec is not empty, but
    its only row has an empty cell, so no row is left to take a minimum
    over and [analyze] raises [ValueError]. *)
Lemma analyze_raises_on_spec_example :
  rows example_raw ≠ [] /\ wf example_raw /\
  analyze (mk example_raw None) = Raise ValueError /\
  ~ (exists report, analyze (mk example_raw None) = Ok report).
Proof.
  assert (analyze (mk example_raw None) = Raise ValueError) as H
    by (vm_compute; reflexivity).
  split; [done |].
  split; [split; by apply (bool_decide_unpack _) |].
  split; [exact H |].
  intros [report Hr]. rewrite H in Hr. discriminate.
Qed.

End Analyze.

(** ** TaskDataset *)

Section Dataset.

Lemma row_get_lookup (cols : list string) (r : list cell) (c : string) (j : nat) :
  NoDup cols -> cols !! j = Some c -> row_get cols r c = r !! j.
Proof.
  intros Hnd. revert r j. induction Hnd as [| k cols Hk Hnd IH]; intros r j Hj; [done |].
  destruct r as [| x r].
  - simpl. by destruct j.
  - destruct j as [| j]; simpl in *.
    + injection Hj as ->. by rewrite String.eqb_refl.
    + destruct (String.eqb_spec c k) as [-> | _]; [| by apply IH].
      destruct Hk. by eapply list_elem_of_lookup_2.
Qed.

Lemma iloc_lookup (df : DataFrame) (i : nat) (r : Z * list cell) :
  rows df !! i = Some r -> iloc (Z.of_nat i) df = Ok r.2.
Proof.
  intros Hr. pose proof (lookup_lt_Some _ _ _ Hr) as Hlt. unfold iloc.
  destruct (Z.ltb_spec (Z.of_nat i) 0) as [? | _]; [lia |].
  destruct (Z.ltb_spec (Z.of_nat i) 0) as [? | _]; [lia |].
  destruct (Z.leb_spec (Z.of_nat (length (rows df))) (Z.of_nat i)) as [? | _]; [lia |].
  simpl. by rewrite Nat2Z.id, Hr.
Qed.

Lemma getitem_cells (data : DataFrame) (i : nat) (r : Z * list cell) (q t : cell) :
  rows data !! i = Some r ->
  row_get (columns data) r.2 "question" = Some q ->
  row_get (columns data) r.2 "target" = Some t ->
  TaskDataset.__getitem__ (TaskDataset.mk data) (Z.of_nat i) = Ok [q; t].
Proof.
  intros Hr Hq Ht. unfold TaskDataset.__getitem__. simpl.
  rewrite (iloc_lookup _ _ _ Hr). simpl. unfold row_getitem. by rewrite Hq, Ht.
Qed.

(** C6. The length of the adapter is the row count of its table; at a
    row position [i] it returns the pair of the cells that row [i]
    holds in the question column and in the target column; [data]
    returns the table, and the table is all an adapter holds. *)
Theorem dataset_is_a_view (data : DataFrame) :
  wf data ->
  TaskDataset.__len__ (TaskDataset.mk data) = length (rows data) /\
  (forall (i jq jt : nat) (r : Z * list cell),
      rows data !! i = Some r ->
      columns data !! jq = Some "question" ->
      columns data !! jt = Some "target" ->
      exists q t, r.2 !! jq = Some q /\ r.2 !! jt = Some t /\
                  TaskDataset.__getitem__ (TaskDataset.mk data) (Z.of_nat i) = Ok [q; t]) /\
  TaskDataset.data (TaskDataset.mk data) = data /\
  (forall d : TaskDataset.t, d = TaskDataset.mk (TaskDataset.data d)).
Proof.
  intros [Hnd Hrows]. split; [done |]. split; [| split; [done | by intros []]].
  intros i jq jt r Hr Hjq Hjt.
  assert (length r.2 = length (columns data)) as Hlen.
  { apply (proj1 (Forall_forall _ _) Hrows). by eapply list_elem_of_lookup_2. }
  destruct (lookup_lt_is_Some_2 r.2 jq) as [q Hq].
  { rewrite Hlen. by eapply lookup_lt_Some. }
  destruct (lookup_lt_is_Some_2 r.2 jt) as [t Ht].
  { rewrite Hlen. by eapply lookup_lt_Some. }
  exists q, t. split; [done |]. split; [done |].
  apply (getitem_cells data i r); [done | |].
  - by rewrite (row_get_lookup _ _ _ jq).
  - by rewrite (row_get_lookup _ _ _ jt).
Qed.

End Dataset.

(** ** LLMPipeline._infer_batch *)

Section InferBatch.

Context {BatchEncoding Generated : Type}.
Implicit Types (self : LLMPipeline.t BatchEncoding Generated).
Implicit Types (model : LLMPipeline.Model BatchEncoding Generated).

Import LLMPipeline.

Lemma texts_of_Text (qs : list string) : texts_of (map Text qs) = Ok qs.
Proof. induction qs as [| q qs IH]; [done |]. simpl. by rewrite IH. Qed.

Lemma slice_from_app (a b : string) : slice_from (String.length a) (a ++ b) = b.
Proof. induction a as [| c a IH]; [by destruct b | exact IH]. Qed.

Lemma slice_from_prompt (q : string) (c : Ascii.ascii) (answer : string) :
  slice_from (Py.len q + 1) (q ++ String c answer) = answer.
Proof.
  unfold Py.len. induction q as [| d q IH]; [done | exact IH].
Qed.

Lemma strip_prompts_text (qs : list string) (predictions : list string) (i : nat) :
  i + length predictions <= length qs ->
  strip_prompts (map Text qs) i predictions
  = Ok (zip_with (fun q p => slice_from (Py.len q + 1) p) (skipn i qs) predictions).
Proof.
  revert i. induction predictions as [| p ps IH]; intros i Hlen.
  - simpl. by destruct (skipn i qs).
  - simpl in *. destruct (lookup_lt_is_Some_2 qs i) as [q Hq]; [lia |].
    change (map Text qs) with (Text <$> qs) at 1. rewrite list_lookup_fmap, Hq. simpl.
    rewrite IH by lia. simpl.
    rewrite (drop_S _ _ _ Hq). done.
Qed.

Lemma infer_batch_text self model (qs : list string) (rest : list (list cell)) :
  _model self = Some model ->
  length (decoded self model qs) <= length qs ->
  _infer_batch self (map Text qs :: rest) = Ok (answers self model qs).
Proof.
  intros Hmodel Hlen. unfold _infer_batch. simpl.
  rewrite texts_of_Text. simpl. rewrite Hmodel.
  fold (decoded self model qs). by rewrite strip_prompts_text.
Qed.

Lemma length_answers self model (qs : list string) :
  length (decoded self model qs) = length qs ->
  length (answers self model qs) = length qs.
Proof. intros H. unfold answers. rewrite length_zip_with. lia. Qed.

(** C4. For a batch of question texts, with a model loaded that gives
    one decoded text per question, [_infer_batch] tokenizes the
    questions with padding and truncation on, generates with
    [max_length], decodes skipping special tokens, and returns, for the
    i-th question, the i-th decoded text without its first
    [len(question) + 1] characters; where the decoded text is the
    question, one more character and an answer, that is the answer. *)
Theorem infer_batch_strips_prompt self model (questions : list string)
    (rest : list (list cell)) :
  _model self = Some model ->
  let predictions :=
    batch_decode (_tokenizer self)
      (generate model (call (_tokenizer self) questions true true) (_max_length self))
      true in
  length predictions = length questions ->
  exists out : list string,
    _infer_batch self (map Text questions :: rest) = Ok out /\
    length out = length questions /\
    (forall i q p, questions !! i = Some q -> predictions !! i = Some p ->
                   out !! i = Some (slice_from (String.length q + 1) p)) /\
    (forall i q c answer, questions !! i = Some q ->
                   predictions !! i = Some (q ++ String c answer) ->
                   out !! i = Some answer).
Proof.
  intros Hmodel predictions Hlen.
  exists (answers self model questions).
  split; [apply infer_batch_text; [done | unfold decoded; fold predictions; lia] |].
  split; [by apply length_answers |].
  assert (forall i q p, questions !! i = Some q -> predictions !! i = Some p ->
            answers self model questions !! i = Some (slice_from (String.length q + 1) p))
    as Hith.
  { intros i q p Hq Hp. unfold answers. rewrite lookup_zip_with, Hq. simpl.
    unfold decoded. fold predictions. by rewrite Hp. }
  split; [exact Hith |].
  intros i q c answer Hq Hp. rewrite (Hith i q _ Hq Hp).
  f_equal. apply slice_from_prompt.
Qed.

End InferBatch.

(** ** The data loader *)

Section Loader.

Lemma batch_sampler_map {A B : Type} (f : A -> B) (batch_size : nat) (batch l : list A) :
  map (map f) (Torch.batch_sampler batch_size batch l)
  = Torch.batch_sampler batch_size (map f batch) (map f l).
Proof.
  revert batch. induction l as [| x l IH]; intros batch; simpl.
  - by destruct batch.
  - rewrite <- (length_map f (batch ++ [x])), map_app. simpl.
    destruct (length (map f batch ++ [f x]) =? batch_size)%nat.
    + simpl. rewrite IH, map_app. done.
    + rewrite IH, map_app. done.
Qed.

Lemma batch_sampler_batches {A : Type} (batch_size : nat) (batch l : list A) :
  Forall (fun b => b ≠ [] /\ forall x, x ∈ b -> x ∈ (batch ++ l)%list)
    (Torch.batch_sampler batch_size batch l).
Proof.
  revert batch. induction l as [| x l IH]; intros batch; simpl.
  - destruct batch; constructor; [| constructor].
    split; [done |]. intros y Hy. by rewrite app_nil_r.
  - assert (forall y b, y ∈ ((batch ++ [x]) ++ b)%list -> y ∈ (batch ++ x :: b)%list) as Hsame.
    { intros y b. by rewrite <- app_assoc. }
    destruct (length (batch ++ [x]) =? batch_size)%nat.
    + constructor.
      * split; [by destruct batch |]. intros y Hy. apply (Hsame y l).
        apply elem_of_app. by left.
      * eapply Forall_impl; [apply (IH []) |]. intros b [Hne Hin]. split; [done |].
        intros y Hy. apply elem_of_app. right. apply elem_of_cons. right. by apply Hin.
    + eapply Forall_impl; [apply (IH (batch ++ [x])%list) |]. intros b [Hne Hin].
      split; [done |]. intros y Hy. by apply Hsame, Hin.
Qed.

Lemma concat_batch_sampler {A : Type} (batch_size : nat) (batch l : list A) :
  concat (Torch.batch_sampler batch_size batch l) = (batch ++ l)%list.
Proof.
  revert batch. induction l as [| x l IH]; intros batch; simpl.
  - destruct batch; simpl; by rewrite ?app_nil_r.
  - destruct (length (batch ++ [x]) =? batch_size)%nat; simpl; rewrite IH;
      by rewrite <- app_assoc.
Qed.

(** With a batch not yet full, the sampler first fills it. *)
Lemma batch_sampler_fill {A : Type} (batch_size : nat) (batch l : list A) :
  length batch < batch_size ->
  batch_size <= length batch + length l ->
  Torch.batch_sampler batch_size batch l
  = (batch ++ firstn (batch_size - length batch) l)%list
      :: Torch.batch_sampler batch_size [] (skipn (batch_size - length batch) l).
Proof.
  revert batch. induction l as [| x l IH]; intros batch Hlt Hle; simpl in *; [lia |].
  rewrite length_app. simpl.
  destruct (Nat.eqb_spec (length batch + 1) batch_size) as [E | E].
  - replace (batch_size - length batch) with 1 by lia. done.
  - rewrite IH by (rewrite ?length_app; simpl; lia).
    rewrite length_app. simpl.
    replace (batch_size - length batch) with (S (batch_size - (length batch + 1))) by lia.
    simpl. by rewrite <- app_assoc.
Qed.

Lemma batch_sampler_short {A : Type} (batch_size : nat) (batch l : list A) :
  length batch + length l < batch_size -> (batch ++ l)%list ≠ [] ->
  Torch.batch_sampler batch_size batch l = [(batch ++ l)%list].
Proof.
  revert batch. induction l as [| x l IH]; intros batch Hlt Hne; simpl in *.
  - rewrite app_nil_r in *. by destruct batch.
  - rewrite length_app. simpl.
    destruct (Nat.eqb_spec (length batch + 1) batch_size) as [E | E]; [lia |].
    rewrite IH.
    + by rewrite <- app_assoc.
    + rewrite length_app. simpl. lia.
    + by destruct batch.
Qed.

Lemma seq_lookup_default {A : Type} (d : A) (l : list A) :
  map (fun i => default d (l !! i)) (seq 0 (length l)) = l.
Proof.
  apply list_eq. intros i. change (map ?f ?k) with (f <$> k).
  rewrite list_lookup_fmap.
  destruct (decide (i < length l)) as [Hlt | Hge].
  - rewrite lookup_seq_lt by done. simpl.
    destruct (lookup_lt_is_Some_2 l i Hlt) as [x Hx]. by rewrite Hx.
  - rewrite lookup_seq_ge, lookup_ge_None_2 by lia. done.
Qed.

End Loader.

(** ** Assigning and selecting columns *)

Section Columns.

Lemma row_get_row_set_eq (cols : list string) (r : list cell) (l : string) (x : cell) :
  l ∈ cols -> length r = length cols -> row_get cols (row_set cols r l x) l = Some x.
Proof.
  revert r. induction cols as [| k cols IH]; intros [| y r] Hl Hlen; simpl in *; try done.
  - by apply elem_of_nil in Hl.
  - destruct (String.eqb_spec l k) as [-> | Hne]; simpl; [done |].
    apply IH; [| lia]. apply elem_of_cons in Hl as [? | ?]; done.
Qed.

Lemma row_get_row_set_ne (cols : list string) (r : list cell) (l c : string) (x : cell) :
  c ≠ l -> row_get cols (row_set cols r l x) c = row_get cols r c.
Proof.
  intros Hne. revert r. induction cols as [| k cols IH]; intros [| y r]; simpl; try done.
  destruct (String.eqb_spec l k) as [-> | Hlk]; simpl.
  - by rewrite (proj2 (String.eqb_neq c k)).
  - destruct (String.eqb c k); [done | apply IH].
Qed.

Lemma row_get_snoc_eq (cols : list string) (r : list cell) (l : string) (x : cell) :
  l ∉ cols -> length r = length cols -> row_get (cols ++ [l]) (r ++ [x]) l = Some x.
Proof.
  revert r. induction cols as [| k cols IH]; intros [| y r] Hl Hlen; simpl in *; try done.
  - by rewrite String.eqb_refl.
  - apply not_elem_of_cons in Hl as [Hlk Hl].
    rewrite (proj2 (String.eqb_neq l k)) by done. apply IH; [done | lia].
Qed.

Lemma row_get_snoc_ne (cols : list string) (r : list cell) (l c : string) (x : cell) :
  c ≠ l -> length r = length cols ->
  row_get (cols ++ [l]) (r ++ [x]) c = row_get cols r c.
Proof.
  intros Hne. revert r.
  induction cols as [| k cols IH]; intros [| y r] Hlen; simpl in *; try done.
  - by rewrite (proj2 (String.eqb_neq c l)).
  - destruct (String.eqb c k); [done |]. apply IH. lia.
Qed.

Lemma setitem_same_length (l : string) (vals : list cell) (df : DataFrame) :
  length vals = length (rows df) ->
  setitem l vals df
  = Ok (setitem_rows l vals (columns df) (rows df) (has_column l df)).
Proof.
  intros Hlen. unfold setitem. rewrite (proj2 (Nat.eqb_eq _ _) Hlen).
  destruct (rows df), vals; done.
Qed.

Lemma setitem_mismatch (l : string) (vals : list cell) (df : DataFrame) :
  length vals ≠ length (rows df) -> rows df ≠ [] ->
  setitem l vals df = Raise ValueError.
Proof.
  intros Hlen Hne. unfold setitem. rewrite (proj2 (Nat.eqb_neq _ _) Hlen).
  destruct (rows df); [done |]. by destruct vals.
Qed.

(** [df[l] = vals]: the column [l] holds [vals] afterwards, the other
    cells and the labels of the rows are as before, and a new column
    comes last. *)
Lemma setitem_spec (l : string) (vals : list cell) (df : DataFrame) :
  Forall (fun r => length r.2 = length (columns df)) (rows df) ->
  length vals = length (rows df) ->
  exists df',
    setitem l vals df = Ok df' /\
    columns df' = (if has_column l df then columns df else columns df ++ [l])%list /\
    map fst (rows df') = map fst (rows df) /\
    (forall i, cell_at df' i l = vals !! i) /\
    (forall i c, c ≠ l -> cell_at df' i c = cell_at df i c).
Proof.
  intros Hrows Hlen. rewrite (setitem_same_length l vals df Hlen). unfold setitem_rows.
  assert (forall f : Z * list cell -> cell -> Z * list cell,
            (forall r x, (f r x).1 = r.1) ->
            map fst (zip_with f (rows df) vals) = map fst (rows df)) as Hfst.
  { intros f Hf. clear Hrows. revert vals Hlen.
    induction (rows df) as [| r rs IH]; intros [| x vals] Hlen; simpl in *; try done.
    rewrite Hf. f_equal. apply IH. lia. }
  assert (forall i, is_Some (vals !! i) <-> is_Some (rows df !! i)) as Hboth.
  { intros i. rewrite !lookup_lt_is_Some. lia. }
  destruct (has_column l df) eqn:Hhas; eexists; (split; [reflexivity |]); simpl.
  - split; [done |]. split; [by apply Hfst |]. unfold cell_at. simpl. split.
    + intros i. rewrite lookup_zip_with.
      destruct (rows df !! i) as [r |] eqn:Hr; simpl.
      * destruct (vals !! i) as [x |] eqn:Hx; simpl.
        -- apply row_get_row_set_eq; [by apply has_column_true |].
           apply (proj1 (Forall_forall _ _) Hrows). by eapply list_elem_of_lookup_2.
        -- done.
      * destruct (vals !! i) eqn:Hx; [| done].
        destruct (proj1 (Hboth i)) as [? ?]; [by eexists | congruence].
    + intros i c Hc. rewrite lookup_zip_with.
      destruct (rows df !! i) as [r |] eqn:Hr; simpl; [| done].
      destruct (vals !! i) as [x |] eqn:Hx; simpl.
      * by apply row_get_row_set_ne.
      * destruct (proj2 (Hboth i)) as [? ?]; [by eexists | congruence].
  - apply has_column_false in Hhas.
    split; [done |]. split; [by apply Hfst |]. unfold cell_at. simpl. split.
    + intros i. rewrite lookup_zip_with.
      destruct (rows df !! i) as [r |] eqn:Hr; simpl.
      * destruct (vals !! i) as [x |] eqn:Hx; simpl.
        -- apply row_get_snoc_eq; [done |].
           apply (proj1 (Forall_forall _ _) Hrows). by eapply list_elem_of_lookup_2.
        -- done.
      * destruct (vals !! i) eqn:Hx; [| done].
        destruct (proj1 (Hboth i)) as [? ?]; [by eexists | congruence].
    + intros i c Hc. rewrite lookup_zip_with.
      destruct (rows df !! i) as [r |] eqn:Hr; simpl; [| done].
      destruct (vals !! i) as [x |] eqn:Hx; simpl.
      * apply row_get_snoc_ne; [done |].
        apply (proj1 (Forall_forall _ _) Hrows). by eapply list_elem_of_lookup_2.
      * destruct (proj2 (Hboth i)) as [? ?]; [by eexists | congruence].
Qed.

(** [df[labels]] with labels that all exist. *)
Lemma getitem_list_present (labels : list string) (df : DataFrame) :
  Forall (fun l => l ∈ columns df) labels ->
  getitem_list labels df =
    Ok (mkDataFrame labels
          (map (fun r => (r.1, map (fun l => default NA (row_get (columns df) r.2 l)) labels))
             (rows df))).
Proof.
  intros Hall. unfold getitem_list.
  replace (filter (fun l => has_column l df = false) labels) with (@nil string); [done |].
  symmetry. induction Hall as [| l ls Hl _ IH]; [done |].
  rewrite filter_cons_False; [exact IH |].
  apply has_column_true in Hl. by rewrite Hl.
Qed.

End Columns.

(** ** LLMPipeline.infer_dataset *)

Section InferDataset.

Context {BatchEncoding Generated : Type}.
Implicit Types (self : LLMPipeline.t BatchEncoding Generated).
Implicit Types (model : LLMPipeline.Model BatchEncoding Generated).

Import LLMPipeline.

Lemma text_dataset_length (data : DataFrame) (samples : list (string * string)) :
  text_dataset data samples -> length (rows data) = length samples.
Proof. intros (_ & _ & _ & H). by eapply Forall2_length. Qed.

Lemma text_dataset_getitem (data : DataFrame) (samples : list (string * string))
    (i : nat) (s : string * string) :
  text_dataset data samples -> samples !! i = Some s ->
  TaskDataset.__getitem__ (TaskDataset.mk data) (Z.of_nat i) = Ok [Text s.1; Text s.2].
Proof.
  intros (_ & _ & _ & Hall) Hs.
  destruct (Forall2_lookup_r _ _ _ _ _ Hall Hs) as (r & Hr & Hq & Ht).
  by apply (getitem_cells data i r).
Qed.

(** Fetching a batch of positions gives the two collated fields: the
    questions and the targets at these positions. *)
Lemma fetch_text_dataset (data : DataFrame) (samples : list (string * string))
    (idxs : list nat) :
  text_dataset data samples -> idxs ≠ [] ->
  (forall i, i ∈ idxs -> i < length samples) ->
  Torch.fetch TaskDataset.__getitem__ (TaskDataset.mk data) idxs
  = Ok [map Text (map (fun i => default "" (map fst samples !! i)) idxs);
        map Text (map (fun i => default "" (map snd samples !! i)) idxs)].
Proof.
  intros Hdata Hne Hidx. unfold Torch.fetch.
  assert (foldr (fun i acc =>
                   s <- TaskDataset.__getitem__ (TaskDataset.mk data) (Z.of_nat i) ;;
                   ss <- acc ;; Ok (s :: ss)) (Ok []) idxs
          = Ok (map (fun i => [Text (default "" (map fst samples !! i));
                               Text (default "" (map snd samples !! i))]) idxs)) as ->.
  { clear Hne. induction idxs as [| i idxs IH]; [done |]. simpl.
    destruct (lookup_lt_is_Some_2 samples i) as [s Hs].
    { apply Hidx, elem_of_cons. by left. }
    rewrite (text_dataset_getitem data samples i s Hdata Hs). simpl.
    rewrite IH by (intros j Hj; apply Hidx, elem_of_cons; by right). simpl.
    change (map ?f samples !! i) with ((f <$> samples) !! i).
    by rewrite !list_lookup_fmap, Hs. }
  simpl. destruct idxs as [| i idxs]; [done |].
  unfold Torch.default_collate. simpl map at 1. cbv beta iota.
  rewrite (proj2 (forallb_forall _ _)).
  - simpl. rewrite !map_map. simpl. done.
  - intros s Hs. apply in_map_iff in Hs as (j & <- & _). done.
Qed.

Lemma infer_batch_first self (first : list cell) (rest : list (list cell)) :
  _infer_batch self (first :: rest) = _infer_batch self [first].
Proof. reflexivity. Qed.

(** The loop over the loader only reads the questions. *)
Lemma for_batch_questions self (data : DataFrame) (samples : list (string * string))
    (batches : list (list nat)) (prediction : list string) :
  text_dataset data samples ->
  Forall (fun b => b ≠ [] /\ forall i, i ∈ b -> i < length samples) batches ->
  for_batch self (map (Torch.fetch TaskDataset.__getitem__ (TaskDataset.mk data)) batches)
    prediction
  = predict_batches self
      (map (map (fun i => default "" (map fst samples !! i))) batches) prediction.
Proof.
  intros Hdata Hall. revert prediction.
  induction Hall as [| b bs [Hne Hidx] _ IH]; intros prediction; [done |].
  simpl. rewrite (fetch_text_dataset data samples b Hdata Hne Hidx). simpl.
  rewrite infer_batch_first.
  destruct (_infer_batch self _); simpl; [apply IH | done].
Qed.

(** [infer_dataset] on a table of text, as a function of the question
    texts, the batch size and the table. *)
Lemma infer_dataset_eq self (data : DataFrame) (samples : list (string * string)) :
  _dataset self = TaskDataset.mk data ->
  text_dataset data samples ->
  (0 < _batch_size self)%Z ->
  infer_dataset self =
    match predict_batches self
            (Torch.batch_sampler (Z.to_nat (_batch_size self)) [] (map fst samples)) [] with
    | Raise e => (Raise e, self)
    | Ok prediction =>
        match setitem "predictions" (map Text prediction) data with
        | Raise e => (Raise e, self)
        | Ok data' => (getitem_list ["target"; "predictions"] data', set_data self data')
        end
    end.
Proof.
  intros Hds Hdata Hbs. unfold infer_dataset, Torch.DataLoader. rewrite Hds.
  destruct (Z.leb_spec (_batch_size self) 0) as [? | _]; [lia |].
  rewrite (for_batch_questions self data samples) at 1; [| done |].
  - rewrite batch_sampler_map. simpl map at 1.
    unfold TaskDataset.__len__, Pandas.len. simpl TaskDataset._data.
    rewrite (text_dataset_length data samples Hdata).
    rewrite <- (length_map fst samples), seq_lookup_default.
    reflexivity.
  - eapply Forall_impl; [apply batch_sampler_batches |].
    intros b [Hne Hin]. split; [done |]. intros i Hi.
    apply Hin in Hi. simpl in Hi. apply list_elem_of_In, in_seq in Hi.
    unfold TaskDataset.__len__, Pandas.len in Hi. simpl in Hi.
    rewrite (text_dataset_length data samples Hdata) in Hi. lia.
Qed.

Lemma predict_batches_answers self model (batches : list (list string))
    (prediction : list string) :
  _model self = Some model -> one_per_text self model ->
  predict_batches self batches prediction
  = Ok (prediction ++ concat (map (answers self model) batches))%list.
Proof.
  intros Hmodel Hone. revert prediction.
  induction batches as [| qs batches IH]; intros prediction; simpl.
  - by rewrite app_nil_r.
  - rewrite (infer_batch_text self model) by (rewrite ?Hone; done). simpl.
    rewrite IH. by rewrite <- app_assoc.
Qed.

Lemma length_concat_map {A B : Type} (g : list A -> list B) (ls : list (list A)) :
  (forall c, length (g c) = length c) ->
  length (concat (map g ls)) = length (concat ls).
Proof.
  intros Hg. induction ls as [| c ls IH]; [done |].
  simpl. rewrite !length_app, Hg, IH. done.
Qed.

(** The i-th element of what the batches give, one batch after the
    other, is the element at offset [i mod batch_size] of what batch
    number [i / batch_size] gives, and that batch is the slice of
    [batch_size] elements (fewer at the end) starting there. *)
Lemma concat_batches_lookup {A B : Type} (g : list A -> list B) (batch_size : nat)
    (l : list A) (i : nat) :
  0 < batch_size -> (forall c, length (g c) = length c) -> i < length l ->
  concat (map g (Torch.batch_sampler batch_size [] l)) !! i
  = g (firstn batch_size (skipn (i / batch_size * batch_size) l)) !! (i mod batch_size).
Proof.
  intros Hbs Hg. remember (length l) as n eqn:Hn. revert l i Hn.
  induction n as [n IH] using lt_wf_ind. intros l i -> Hi.
  destruct (decide (length l < batch_size)) as [Hshort | Hlong].
  - rewrite batch_sampler_short; [| simpl; lia | destruct l; simpl in *; [lia | done]].
    simpl. rewrite app_nil_r.
    rewrite Nat.div_small, Nat.mod_small by lia.
    change (0 * batch_size) with 0. rewrite drop_0.
    by rewrite firstn_all2 by lia.
  - rewrite batch_sampler_fill by (simpl; lia). simpl.
    rewrite Nat.sub_0_r.
    assert (length (g (firstn batch_size l)) = batch_size) as Hfirst.
    { rewrite Hg, length_firstn. lia. }
    destruct (decide (i < batch_size)) as [Hi0 | Hi1].
    + rewrite lookup_app_l by lia.
      rewrite Nat.div_small, Nat.mod_small by lia. done.
    + rewrite lookup_app_r by lia. rewrite Hfirst.
      rewrite (IH (length (skipn batch_size l))) with (l := skipn batch_size l);
        try done; rewrite ?length_skipn; try lia.
      replace i with ((i - batch_size) + 1 * batch_size) at 3 4 by lia.
      rewrite Nat.div_add, Nat.Div0.mod_add by lia.
      rewrite drop_drop.
      replace (batch_size + (i - batch_size) / batch_size * batch_size)
        with (((i - batch_size) / batch_size + 1) * batch_size) by lia.
      done.
Qed.

(** The view that [infer_dataset] returns after a successful
    assignment of the predictions. *)
Lemma predictions_view (data data' : DataFrame) (vals : list cell) :
  wf data -> "target" ∈ columns data ->
  length vals = length (rows data) ->
  setitem "predictions" vals data = Ok data' ->
  exists out,
    getitem_list ["target"; "predictions"] data' = Ok out /\
    columns out = ["target"; "predictions"] /\
    length (rows out) = length (rows data) /\
    getitem "predictions" out = Ok vals /\
    (forall i r, rows data !! i = Some r ->
       exists x, vals !! i = Some x /\
         rows out !! i
         = Some (r.1, [default NA (row_get (columns data) r.2 "target"); x])).
Proof.
  intros [Hnd Hrows] Htarget Hlen Hset.
  destruct (setitem_spec "predictions" vals data Hrows Hlen)
    as (df' & Hset' & Hcols & Hfst & Hpred & Hother).
  rewrite Hset in Hset'. injection Hset' as <-.
  assert (length (rows data') = length (rows data)) as Hlen'.
  { by rewrite <- (length_map fst), Hfst, length_map. }
  rewrite getitem_list_present.
  2:{ rewrite Hcols. destruct (has_column "predictions" data) eqn:E.
      - repeat constructor; [done | by apply has_column_true].
      - repeat constructor; apply elem_of_app; [by left | right].
        apply elem_of_cons. by left. }
  eexists. split; [reflexivity |]. simpl.
  split; [done |]. split; [by rewrite length_map |].
  assert (forall i r', rows data' !! i = Some r' ->
            row_get (columns data') r'.2 "predictions" = vals !! i /\
            row_get (columns data') r'.2 "target" = cell_at data i "target") as Hcells.
  { intros i r' Hr'. split.
    - rewrite <- Hpred. unfold cell_at. by rewrite Hr'.
    - rewrite <- (Hother i "target") by done. unfold cell_at. by rewrite Hr'. }
  split.
  - unfold getitem, has_column. simpl. f_equal.
    apply list_eq. intros i. change (map ?f ?k) with (f <$> k).
    rewrite !list_lookup_fmap.
    destruct (rows data' !! i) as [r' |] eqn:Hr'; simpl.
    + destruct (Hcells i r' Hr') as [-> _].
      destruct (lookup_lt_is_Some_2 vals i) as [x Hx].
      { rewrite Hlen, <- Hlen'. by eapply lookup_lt_Some. }
      by rewrite Hx.
    + symmetry. apply lookup_ge_None_2. rewrite Hlen, <- Hlen'.
      by apply lookup_ge_None_1.
  - intros i r Hr.
    destruct (lookup_lt_is_Some_2 vals i) as [x Hx].
    { rewrite Hlen. by eapply lookup_lt_Some. }
    destruct (lookup_lt_is_Some_2 (rows data') i) as [r' Hr'].
    { rewrite Hlen'. by eapply lookup_lt_Some. }
    exists x. split; [done |].
    change (map ?f ?k) with (f <$> k). rewrite list_lookup_fmap, Hr'. simpl.
    destruct (Hcells i r' Hr') as [-> ->]. rewrite Hx. simpl.
    unfold cell_at. rewrite Hr. simpl.
    assert (r'.1 = r.1) as ->; [| done].
    assert ((fst <$> rows data') !! i = (fst <$> rows data) !! i) as Hi
      by (change (fst <$> ?k) with (map fst k); by rewrite Hfst).
    rewrite !list_lookup_fmap, Hr, Hr' in Hi. by injection Hi.
Qed.

(** C3, amended.  On a table of text, with a positive batch size and a model
    loaded that gives one decoded text per question, [infer_dataset]
    succeeds.  It accumulates one prediction per row: the prediction of
    row [i] is the one of offset [i mod batch_size] in the batch number
    [i / batch_size], the batches being the consecutive slices of
    [batch_size] questions in row order (the last one possibly
    shorter).  The predictions are stored as the column predictions of
    the table behind the dataset (a new last column if there was none),
    the other cells and the row labels unchanged, and the result has
    the two columns target and predictions and, at the position of
    every row, the label, the target and the prediction of that row. *)
Theorem infer_dataset_aligned self model (data : DataFrame)
    (samples : list (string * string)) :
  _dataset self = TaskDataset.mk data ->
  text_dataset data samples ->
  (0 < _batch_size self)%Z ->
  _model self = Some model ->
  one_per_text self model ->
  exists (prediction : list string) (data' out : DataFrame),
    infer_dataset self = (Ok out, set_data self data') /\
    length prediction = length (rows data) /\
    (forall i, i < length samples ->
       prediction !! i
       = answers self model
           (firstn (Z.to_nat (_batch_size self))
              (skipn (i / Z.to_nat (_batch_size self) * Z.to_nat (_batch_size self))
                 (map fst samples)))
         !! (i mod Z.to_nat (_batch_size self))) /\
    columns data' = (if has_column "predictions" data then columns data
                     else columns data ++ ["predictions"])%list /\
    map fst (rows data') = map fst (rows data) /\
    (forall i, cell_at data' i "predictions" = Text <$> prediction !! i) /\
    (forall i c, c ≠ "predictions" -> cell_at data' i c = cell_at data i c) /\
    columns out = ["target"; "predictions"] /\
    length (rows out) = length (rows data) /\
    (forall i r s, rows data !! i = Some r -> samples !! i = Some s ->
       exists p, prediction !! i = Some p /\
                 rows out !! i = Some (r.1, [Text s.2; Text p])).
Proof.
  intros Hds Hdata Hbs Hmodel Hone.
  pose proof Hdata as ([Hnd Hrows] & Hq & Ht & Hall).
  set (bs := Z.to_nat (_batch_size self)).
  set (prediction := concat (map (answers self model)
                               (Torch.batch_sampler bs [] (map fst samples)))).
  assert (length prediction = length (rows data)) as Hlen.
  { unfold prediction. rewrite length_concat_map.
    - rewrite concat_batch_sampler. simpl.
      by rewrite length_map, (text_dataset_length data samples).
    - intros c. by apply length_answers. }
  destruct (setitem_spec "predictions" (map Text prediction) data Hrows)
    as (data' & Hset & Hcols & Hfst & Hpred & Hother); [by rewrite length_map |].
  destruct (predictions_view data data' (map Text prediction))
    as (out & Hout & Hocols & Holen & _ & Horows);
    [done | done | by rewrite length_map | done |].
  exists prediction, data', out.
  split.
  { rewrite (infer_dataset_eq self data samples Hds Hdata Hbs).
    rewrite (predict_batches_answers self model) by done.
    fold bs. simpl app. fold prediction. by rewrite Hset, Hout. }
  split; [done |].
  split.
  { intros i Hi. unfold prediction. apply concat_batches_lookup.
    - unfold bs. lia.
    - intros c. by apply length_answers.
    - by rewrite length_map. }
  split; [done |]. split; [done |].
  split.
  { intros i. rewrite Hpred. change (map Text prediction) with (Text <$> prediction).
    by rewrite list_lookup_fmap. }
  split; [done |]. split; [done |]. split; [done |].
  intros i r s Hr Hs.
  destruct (Horows i r Hr) as (x & Hx & Hrow).
  change (map Text prediction) with (Text <$> prediction) in Hx.
  rewrite list_lookup_fmap in Hx.
  destruct (prediction !! i) as [p |] eqn:Hp; [| done]. injection Hx as <-.
  exists p. split; [done |]. rewrite Hrow.
  destruct (Forall2_lookup_lr _ _ _ _ _ _ Hall Hr Hs) as [_ ->]. done.
Qed.

(** C10, amended.  [_infer_batch] reads the first field of a collated batch, the
    questions, and nothing else of it; and two datasets of text with the
    same questions, whatever their targets, run through pipelines that
    differ in the dataset alone, end alike: with the same exception, or
    with results whose predictions columns are equal. *)
Theorem predictions_independent_of_targets self1 self2 (data1 data2 : DataFrame)
    (samples1 samples2 : list (string * string)) :
  _dataset self1 = TaskDataset.mk data1 ->
  _dataset self2 = TaskDataset.mk data2 ->
  _model self1 = _model self2 ->
  _tokenizer self1 = _tokenizer self2 ->
  _max_length self1 = _max_length self2 ->
  _batch_size self1 = _batch_size self2 ->
  text_dataset data1 samples1 ->
  text_dataset data2 samples2 ->
  map fst samples1 = map fst samples2 ->
  (forall first rest, _infer_batch self1 (first :: rest) = _infer_batch self1 [first]) /\
  (out <- (infer_dataset self1).1 ;; getitem "predictions" out)
  = (out <- (infer_dataset self2).1 ;; getitem "predictions" out).
Proof.
  intros Hds1 Hds2 Hmodel Htok Hmax Hbs Hd1 Hd2 Hsame.
  split; [intros first rest; apply infer_batch_first |].
  destruct (Z.leb_spec (_batch_size self1) 0) as [Hle | Hlt].
  - unfold infer_dataset, Torch.DataLoader. rewrite <- Hbs.
    by rewrite (proj2 (Z.leb_le _ _) Hle).
  - rewrite (infer_dataset_eq self1 data1 samples1), (infer_dataset_eq self2 data2 samples2);
      try done; try lia.
    rewrite <- Hbs, <- Hsame.
    assert (forall batches prediction,
              predict_batches self1 batches prediction
              = predict_batches self2 batches prediction) as ->.
    { induction batches as [| qs batches IH]; intros prediction; [done |].
      simpl. unfold _infer_batch. simpl. rewrite Hmodel, Htok, Hmax.
      destruct (texts_of (map Text qs)); simpl; [| done].
      destruct (_model self2); simpl; [| done].
      destruct (strip_prompts _ _ _); simpl; [apply IH | done]. }
    destruct (predict_batches self2 _ _) as [prediction | e] eqn:Hrun; [| done].
    assert (length (rows data1) = length (rows data2)) as Hrows.
    { rewrite (text_dataset_length data1 samples1), (text_dataset_length data2 samples2)
        by done.
      by rewrite <- (length_map fst samples1), Hsame, length_map. }
    destruct (decide (length (map Text prediction) = length (rows data1))) as [Hlen | Hlen].
    + destruct Hd1 as (Hwf1 & _ & Ht1 & _), Hd2 as (Hwf2 & _ & Ht2 & _).
      destruct (setitem_spec "predictions" (map Text prediction) data1 (proj2 Hwf1) Hlen)
        as (d1 & Hset1 & _).
      destruct (setitem_spec "predictions" (map Text prediction) data2 (proj2 Hwf2))
        as (d2 & Hset2 & _); [congruence |].
      rewrite Hset1, Hset2. simpl.
      destruct (predictions_view data1 d1 _ Hwf1 Ht1 Hlen Hset1)
        as (o1 & Ho1 & _ & _ & Hg1 & _).
      destruct (predictions_view data2 d2 (map Text prediction) Hwf2 Ht2)
        as (o2 & Ho2 & _ & _ & Hg2 & _); [congruence | done |].
      rewrite Ho1, Ho2. simpl. by rewrite Hg1, Hg2.
    + assert (rows data1 ≠ []) as Hne1.
      { intros E. apply Hlen. rewrite E.
        assert (samples1 = []) as ->.
        { apply length_zero_iff_nil.
          by rewrite <- (text_dataset_length data1 samples1), E. }
        simpl in Hrun. by injection Hrun as <-. }
      assert (rows data2 ≠ []) as Hne2.
      { intros E. apply Hne1, length_zero_iff_nil. by rewrite Hrows, E. }
      rewrite (setitem_mismatch _ _ data1 Hlen Hne1).
      rewrite Hrows in Hlen. by rewrite (setitem_mismatch _ _ data2 Hlen Hne2).
Qed.

End InferDataset.

(** ** LLMPipeline.infer_sample *)

Section InferSample.

Context {BatchEncoding Generated : Type}.
Implicit Types (self : LLMPipeline.t BatchEncoding Generated).
Implicit Types (model : LLMPipeline.Model BatchEncoding Generated).

Import LLMPipeline.

(** [None] is returned exactly when no model is loaded. *)
Lemma infer_sample_None self (sample : list cell) :
  infer_sample self sample = Ok None <-> _model self = None.
Proof.
  unfold infer_sample. destruct (_model self) as [model |]; [| done].
  split; [| done].
  destruct (_infer_batch self [sample]) as [predictions | e]; simpl; [| done].
  by destruct (predictions !! 0%nat).
Qed.

(** The texts that [infer_sample] hands to the tokenizer are the
    components of the sample: for a sample of a question and a target,
    both. *)
Lemma infer_sample_pair self model (question target : string) :
  _model self = Some model ->
  length (decoded self model [question; target]) = 2 ->
  exists p, decoded self model [question; target] !! 0%nat = Some p /\
            infer_sample self [Text question; Text target]
            = Ok (Some (slice_from (Py.len question + 1) p)).
Proof.
  intros Hmodel Hlen. unfold infer_sample. rewrite Hmodel.
  change [Text question; Text target] with (map Text [question; target]).
  rewrite (infer_batch_text self model [question; target] []) by (rewrite ?Hlen; done).
  simpl. unfold answers.
  destruct (decoded self model [question; target]) as [| p [| p' [| ? ?]]]; try done.
  by exists p.
Qed.

(** For a sample of the question alone it is the batched path on the
    batch of this one question. *)
Lemma infer_sample_question_only self model (question : string) :
  _model self = Some model ->
  length (decoded self model [question]) = 1 ->
  infer_sample self [Text question] = Ok (answers self model [question] !! 0%nat).
Proof.
  intros Hmodel Hlen. unfold infer_sample. rewrite Hmodel.
  change [Text question] with (map Text [question]).
  rewrite (infer_batch_text self model [question] []) by (rewrite ?Hlen; done).
  simpl. unfold answers.
  by destruct (decoded self model [question]) as [| p [| ? ?]].
Qed.

End InferSample.

(** C5, evaluated on the sample that the dataset returns for its first
    row, with the toy model.  The batched path of [infer_dataset] on the
    batch of this one row tokenizes the question alone and predicts
    "yes"; [infer_sample] tokenizes the question and the target as two
    texts, the question is padded to the length of the target, and the
    prediction is "no". *)
Theorem infer_sample_tokenizes_target :
  TaskDataset.__getitem__ (TaskDataset.mk example_single) 0
  = Ok [Text "Hi"; Text "a long target"] /\
  (LLMPipeline.infer_dataset (toy_pipeline example_single 1)).1
  = Ok (of_rows ["target"; "predictions"] [[Text "a long target"; Text "yes"]]) /\
  LLMPipeline.call toy_tokenizer ["Hi"; "a long target"] true true
  = [("Hi", 11); ("a long target", 0)] /\
  LLMPipeline.infer_sample (toy_pipeline example_single 1) [Text "Hi"; Text "a long target"]
  = Ok (Some "no").
Proof. repeat split; vm_compute; reflexivity. Qed.

(** ** TaskEvaluator.run *)

Section Evaluator.

Context {Score : Type}.
Variable read_csv : string -> result DataFrame.
Variable load : string -> result (TaskEvaluator.Scorer Score).

Import TaskEvaluator.

Lemma recognised_false (metric : Metrics) :
  recognised metric = false <-> value metric ≠ "bleu" /\ value metric ≠ "rouge".
Proof.
  unfold recognised. rewrite orb_false_iff, !String.eqb_neq. done.
Qed.

(** Identifiers that are not recognised leave the loop untouched. *)
Lemma for_metric_filter (data : DataFrame) (todo : list Metrics)
    (metrics : gmap string (option Score)) :
  for_metric load data todo metrics
  = for_metric load data (filter (fun m => recognised m = true) todo) metrics.
Proof.
  revert metrics. induction todo as [| metric todo IH]; intros metrics; [done |].
  destruct (String.eqb (value metric) "bleu") eqn:Hb.
  - rewrite filter_cons_True by (unfold recognised; by rewrite Hb).
    simpl. rewrite Hb.
    destruct (load (value metric)); simpl; [| done].
    destruct (getitem "target" data); simpl; [| done].
    destruct (getitem "predictions" data); simpl; [| done].
    destruct (a _ _); simpl; [apply IH | done].
  - destruct (String.eqb (value metric) "rouge") eqn:Hr.
    + rewrite filter_cons_True by (unfold recognised; by rewrite Hb, Hr).
      simpl. rewrite Hb, Hr.
      destruct (load (value metric)); simpl; [| done].
      destruct (getitem "target" data); simpl; [| done].
      destruct (getitem "predictions" data); simpl; [| done].
      destruct (a _ _); simpl; [apply IH | done].
    + rewrite filter_cons_False by (unfold recognised; by rewrite Hb, Hr).
      simpl. rewrite Hb, Hr. apply IH.
Qed.

(** The loop only ever writes the keys bleu and rouge. *)
Lemma for_metric_keys (data : DataFrame) (todo : list Metrics)
    (metrics result : gmap string (option Score)) (k : string) :
  for_metric load data todo metrics = Ok result ->
  k ≠ "bleu" -> k ≠ "rouge" -> result !! k = metrics !! k.
Proof.
  intros Hrun Hb Hr. revert metrics Hrun.
  induction todo as [| metric todo IH]; intros metrics Hrun; simpl in Hrun.
  - by injection Hrun as <-.
  - destruct (String.eqb (value metric) "bleu").
    + destruct (load (value metric)); simpl in Hrun; [| done].
      destruct (getitem "target" data); simpl in Hrun; [| done].
      destruct (getitem "predictions" data); simpl in Hrun; [| done].
      destruct (a _ _); simpl in Hrun; [| done].
      rewrite (IH _ Hrun). by rewrite lookup_insert_ne.
    + destruct (String.eqb (value metric) "rouge").
      * destruct (load (value metric)); simpl in Hrun; [| done].
        destruct (getitem "target" data); simpl in Hrun; [| done].
        destruct (getitem "predictions" data); simpl in Hrun; [| done].
        destruct (a _ _); simpl in Hrun; [| done].
        rewrite (IH _ Hrun). by rewrite lookup_insert_ne.
      * by apply IH.
Qed.

(** C7. [run] gives the same outcome as on the recognised identifiers
    alone, so an identifier other than bleu and rouge raises nothing;
    the mapping returned has no key for such an identifier; and when
    no identifier is recognised and the table is read, the empty
    mapping is returned. *)
Theorem run_skips_unrecognised (self : t) :
  run read_csv load self
  = run read_csv load (mk (_data_path self)
                         (filter (fun m => recognised m = true) (_metrics self))) /\
  (forall metrics metric,
      run read_csv load self = Ok metrics ->
      recognised metric = false -> metrics !! value metric = None) /\
  (forall csv data,
      read_csv (_data_path self) = Ok csv -> drop ["Unnamed: 0"] csv = Ok data ->
      Forall (fun m => recognised m = false) (_metrics self) ->
      run read_csv load self = Ok ∅).
Proof.
  split; [| split].
  - unfold run. simpl.
    destruct (read_csv (_data_path self)) as [csv | e]; simpl; [| done].
    destruct (drop ["Unnamed: 0"] csv) as [data | e]; simpl; [| done].
    apply for_metric_filter.
  - intros metrics metric Hrun [Hb Hr]%recognised_false. unfold run in Hrun.
    destruct (read_csv (_data_path self)) as [csv | e]; simpl in Hrun; [| done].
    destruct (drop ["Unnamed: 0"] csv) as [data | e]; simpl in Hrun; [| done].
    by rewrite (for_metric_keys data _ ∅ metrics (value metric) Hrun).
  - intros csv data Hread Hdrop Hall. unfold run. rewrite Hread. simpl.
    rewrite Hdrop. simpl. rewrite for_metric_filter.
    replace (filter (fun m => recognised m = true) (_metrics self)) with (@nil Metrics);
      [done |].
    symmetry. induction Hall as [| m ms Hm _ IH]; [done |].
    rewrite filter_cons_False; [done | by rewrite Hm].
Qed.

(** The series of a column that is not dropped is the same before and
    after [drop]. *)
Lemma getitem_drop (labels : list string) (c : string) (df df' : DataFrame) :
  drop labels df = Ok df' -> c ∉ labels ->
  getitem c df' = getitem c df.
Proof.
  intros Hdrop Hc. unfold drop in Hdrop.
  destruct (filter _ labels); [| done]. injection Hdrop as <-.
  set (keep := fun k => negb (existsb (String.eqb k) labels)).
  assert (keep c = true) as Hkeep.
  { unfold keep. rewrite negb_true_iff, <- not_true_iff_false. by rewrite existsb_eqb_true. }
  set (df' := mkDataFrame _ _).
  assert (has_column c df' = has_column c df) as Hhas.
  { apply eq_true_iff_eq. rewrite !has_column_true. unfold df'. simpl.
    rewrite list_elem_of_filter. tauto. }
  unfold getitem. rewrite Hhas.
  destruct (has_column c df); [| done]. f_equal. unfold df'. simpl. rewrite map_map.
  apply map_ext. intros r. simpl.
  pose proof (row_get_keep_rename keep id (columns df) r.2 c Hkeep) as H.
  rewrite map_id in H. change (id c) with c in H.
  f_equal. apply H. by intros k _ _ Hk.
Qed.

(** The outcome of the loop when both scorers load and compute. *)
Lemma for_metric_scores (data : DataFrame) (references predictions : Series)
    (bleu rouge : Scorer Score) (bleu_score rouge_score : gmap string Score)
    (todo : list Metrics) (metrics : gmap string (option Score)) :
  getitem "target" data = Ok references ->
  getitem "predictions" data = Ok predictions ->
  load "bleu" = Ok bleu -> bleu references predictions = Ok bleu_score ->
  load "rouge" = Ok rouge -> rouge references predictions = Ok rouge_score ->
  exists result,
    for_metric load data todo metrics = Ok result /\
    result !! "bleu" = (if requested "bleu" todo then Some (bleu_score !! "bleu")
                        else metrics !! "bleu") /\
    result !! "rouge" = (if requested "rouge" todo then Some (rouge_score !! "rougeL")
                         else metrics !! "rouge").
Proof.
  intros Href Hpred Hlb Hb Hlr Hr. revert metrics.
  induction todo as [| metric todo IH]; intros metrics.
  - exists metrics. done.
  - simpl. destruct (String.eqb_spec (value metric) "bleu") as [Eb | Eb].
    + rewrite Eb, Hlb. simpl. rewrite Href. simpl. rewrite Hpred. simpl. rewrite Hb. simpl.
      destruct (IH (<["bleu" := bleu_score !! "bleu"]> metrics)) as (res & -> & H1 & H2).
      exists res. split; [done |]. rewrite H1, H2.
      rewrite lookup_insert_eq, lookup_insert_ne by done.
      by destruct (requested "bleu" todo).
    + destruct (String.eqb_spec (value metric) "rouge") as [Er | Er].
      * rewrite Er, Hlr. simpl. rewrite Href. simpl. rewrite Hpred. simpl. rewrite Hr. simpl.
        destruct (IH (<["rouge" := rouge_score !! "rougeL"]> metrics)) as (res & -> & H1 & H2).
        exists res. split; [done |]. rewrite H1, H2.
        rewrite lookup_insert_eq, lookup_insert_ne by done.
        by destruct (requested "rouge" todo).
      * simpl. apply IH.
Qed.


End Evaluator.

(** ** RawDataImporter.obtain *)

Section Importer.

Context {World HFDataset Other : Type}.
Variable load_dataset : string -> string -> World -> result HFDataset * World.
Variable to_pandas : HFDataset -> result (@RawDataImporter.pyobject Other).

Import RawDataImporter.

(** C9. [obtain] asks the registry once, for the split train of the
    dataset named by the importer: the registry is afterwards as this
    one fetch leaves it.  A frame is stored and [obtain] returns; a
    value that is not a frame is stored and [TypeError] is raised; a
    failure of the fetch or of the conversion is raised as it is, the
    importer unchanged. *)
Theorem obtain_contract (self : t Other) (w : World) :
  (obtain load_dataset to_pandas self w).2
  = (load_dataset (_hf_name self) "train" w).2 /\
  (forall dataset df,
      (load_dataset (_hf_name self) "train" w).1 = Ok dataset ->
      to_pandas dataset = Ok (IsDataFrame df) ->
      (obtain load_dataset to_pandas self w).1
      = (Ok tt, mk (_hf_name self) (Some (IsDataFrame df)))) /\
  (forall dataset o,
      (load_dataset (_hf_name self) "train" w).1 = Ok dataset ->
      to_pandas dataset = Ok (NotDataFrame o) ->
      (obtain load_dataset to_pandas self w).1
      = (Raise TypeError, mk (_hf_name self) (Some (NotDataFrame o)))) /\
  (forall e,
      (load_dataset (_hf_name self) "train" w).1 = Raise e ->
      (obtain load_dataset to_pandas self w).1 = (Raise e, self)) /\
  (forall dataset e,
      (load_dataset (_hf_name self) "train" w).1 = Ok dataset ->
      to_pandas dataset = Raise e ->
      (obtain load_dataset to_pandas self w).1 = (Raise e, self)).
Proof.
  unfold obtain.
  destruct (load_dataset (_hf_name self) "train" w) as [[dataset | e] w']; simpl.
  - destruct (to_pandas dataset) as [[df | o] | e'] eqn:E; simpl;
      (split; [done |]); repeat split; intros; simplify_eq; congruence.
  - split; [done |]. repeat split; intros; simplify_eq; done.
Qed.

End Importer.

(** ** The theorems at the example tables *)

Lemma wf_example_raw : wf example_raw.
Proof. split; by apply (bool_decide_unpack _). Defined.

Lemma wf_example_mixed : wf example_mixed.
Proof. split; by apply (bool_decide_unpack _). Defined.

Lemma wf_example_clean : wf example_clean.
Proof. split; by apply (bool_decide_unpack _). Defined.

Lemma text_dataset_example_clean :
  text_dataset example_clean [("Hi", "a long target"); ("Explain X", "X is Y")].
Proof.
  split; [exact wf_example_clean |].
  split; [by apply (bool_decide_unpack _) |].
  split; [by apply (bool_decide_unpack _) |].
  repeat constructor.
Defined.

Lemma one_per_text_toy (data : DataFrame) (batch_size : Z) :
  one_per_text (toy_pipeline data batch_size) toy_model.
Proof. intros texts. unfold decoded. simpl. by rewrite !length_map. Defined.

(** The example of the spec: one row in, one row out, two columns. *)
Lemma transform_pure_projection_witness :
  exists out : DataFrame,
    RawDataPreprocessor.transform (RawDataPreprocessor.mk example_raw None)
    = Ok (RawDataPreprocessor.mk example_raw (Some out)) /\
    length (columns out) + 2 = 4.
Proof.
  destruct (transform_pure_projection (RawDataPreprocessor.mk example_raw None))
    as (out & Hrun & Hcols & _).
  - exact wf_example_raw.
  - by apply (bool_decide_unpack _).
  - by apply (bool_decide_unpack _).
  - by apply (bool_decide_unpack _).
  - by apply (bool_decide_unpack _).
  - exists out. split; [exact Hrun | exact Hcols].
Defined.

Lemma analyze_report_witness :
  exists report : gmap string nat,
    RawDataPreprocessor.analyze (RawDataPreprocessor.mk example_mixed None) = Ok report /\
    report !! "dataset_number_of_samples" = Some 5 /\
    report !! "dataset_columns" = Some 4 /\
    report !! "dataset_duplicates" = Some 1 /\
    report !! "dataset_empty_rows" = Some 2.
Proof.
  destruct (analyze_report (RawDataPreprocessor.mk example_mixed None))
    as (report & shortest & longest & Hrun & _ & Hn & Hc & Hd & He & _).
  - exact wf_example_mixed.
  - by apply (bool_decide_unpack _).
  - intros [H _]. revert H. by apply (bool_decide_unpack _).
  - intros r x Hr Hc Hx. simpl in Hr.
    repeat (apply elem_of_cons in Hr as [-> | Hr]);
      try (injection Hx as <-; by eexists);
      try (by apply elem_of_nil in Hr).
  - exists (1%Z, [Text "Say hi"; Text "in"; Text "hi"; Text "t"]).
    split; [by apply (bool_decide_unpack _) | by apply (bool_decide_unpack _)].
  - exists report. repeat split; [exact Hrun | exact Hn | exact Hc | exact Hd | exact He].
Defined.

Lemma dataset_is_a_view_witness :
  TaskDataset.__len__ (TaskDataset.mk example_clean) = 2 /\
  TaskDataset.data (TaskDataset.mk example_clean) = example_clean.
Proof.
  destruct (dataset_is_a_view example_clean wf_example_clean) as (Hlen & _ & Hdata & _).
  split; [exact Hlen | exact Hdata].
Defined.

Lemma infer_batch_strips_prompt_witness :
  exists out : list string,
    LLMPipeline._infer_batch (toy_pipeline example_clean 2)
      [map Text ["Hi"; "Explain X"]; map Text ["a long target"; "X is Y"]] = Ok out /\
    length out = 2.
Proof.
  destruct (infer_batch_strips_prompt (toy_pipeline example_clean 2) toy_model
              ["Hi"; "Explain X"] [map Text ["a long target"; "X is Y"]])
    as (out & Hrun & Hlen & _).
  - reflexivity.
  - reflexivity.
  - exists out. split; [exact Hrun | exact Hlen].
Defined.

Lemma infer_dataset_aligned_witness :
  exists (prediction : list string) (data' out : DataFrame),
    LLMPipeline.infer_dataset (toy_pipeline example_clean 2)
    = (Ok out, LLMPipeline.set_data (toy_pipeline example_clean 2) data') /\
    length prediction = 2 /\
    columns out = ["target"; "predictions"].
Proof.
  destruct (infer_dataset_aligned (toy_pipeline example_clean 2) toy_model example_clean
              [("Hi", "a long target"); ("Explain X", "X is Y")])
    as (prediction & data' & out & Hrun & Hlen & _ & _ & _ & _ & _ & Hcols & _).
  - reflexivity.
  - exact text_dataset_example_clean.
  - simpl. lia.
  - reflexivity.
  - apply one_per_text_toy.
  - exists prediction, data', out. repeat split; [exact Hrun | exact Hlen | exact Hcols].
Defined.

Lemma predictions_independent_of_targets_witness :
  (out <- (LLMPipeline.infer_dataset (toy_pipeline example_clean 2)).1 ;;
   getitem "predictions" out)
  = (out <- (LLMPipeline.infer_dataset (toy_pipeline example_clean_other 2)).1 ;;
     getitem "predictions" out).
Proof.
  refine (proj2 (predictions_independent_of_targets
                   (toy_pipeline example_clean 2) (toy_pipeline example_clean_other 2)
                   example_clean example_clean_other
                   [("Hi", "a long target"); ("Explain X", "X is Y")]
                   [("Hi", "t"); ("Explain X", "another target")]
                   eq_refl eq_refl eq_refl eq_refl eq_refl eq_refl
                   text_dataset_example_clean _ eq_refl)).
  split; [split; by apply (bool_decide_unpack _) |].
  split; [by apply (bool_decide_unpack _) |].
  split; [by apply (bool_decide_unpack _) |].
  repeat constructor.
Defined.



(** ** Runs on the example tables *)

(** The example of the spec: the row keeps its question and its target. *)
Example transform_example_raw :
  RawDataPreprocessor.transform (RawDataPreprocessor.mk example_raw None)
  = Ok (RawDataPreprocessor.mk example_raw
          (Some (of_rows ["question"; "target"] [[Text "Explain X"; Text "X is Y"]]))).
Proof. reflexivity. Qed.

Example analyze_example_mixed :
  exists report : gmap string nat,
    RawDataPreprocessor.analyze (RawDataPreprocessor.mk example_mixed None) = Ok report /\
    report !! "dataset_sample_min_len" = Some 6 /\
    report !! "dataset_sample_max_len" = Some 8.
Proof. eexists. split; [vm_compute; reflexivity |]. split; reflexivity. Qed.

(** A table without an instruction column, and a table whose instruction
    is a number. *)
Example analyze_without_instruction :
  RawDataPreprocessor.analyze
    (RawDataPreprocessor.mk (of_rows ["question"; "target"] [[Text "a"; Text "b"]]) None)
  = Raise (KeyError ["instruction"]).
Proof. reflexivity. Qed.

Example analyze_numeric_instruction :
  RawDataPreprocessor.analyze
    (RawDataPreprocessor.mk (of_rows ["instruction"; "output"] [[Num 7; Text "b"]]) None)
  = Raise TypeError.
Proof. reflexivity. Qed.

Example batch_sampler_five_by_two :
  Torch.batch_sampler 2 [] (seq 0 5) = [[0; 1]; [2; 3]; [4]]%nat.
Proof. reflexivity. Qed.

(** Two rows in one batch: the shorter question is padded. *)
Example infer_dataset_example_clean :
  (LLMPipeline.infer_dataset (toy_pipeline example_clean 2)).1
  = Ok (of_rows ["target"; "predictions"]
          [[Text "a long target"; Text "no"]; [Text "X is Y"; Text "yes"]]).
Proof. vm_compute. reflexivity. Qed.

Example infer_dataset_batch_size_zero :
  (LLMPipeline.infer_dataset (toy_pipeline example_clean 0)).1 = Raise ValueError.
Proof. reflexivity. Qed.

Example getitem_negative_index :
  TaskDataset.__getitem__ (TaskDataset.mk example_clean) (-1)
  = Ok [Text "Explain X"; Text "X is Y"] /\
  TaskDataset.__getitem__ (TaskDataset.mk example_clean) 2 = Raise IndexError.
Proof. split; reflexivity. Qed.

Example obtain_toy_registry :
  RawDataImporter.obtain toy_load_dataset toy_to_pandas (RawDataImporter.mk "tables" None) 0
  = (Ok tt, RawDataImporter.mk "tables" (Some (RawDataImporter.IsDataFrame example_raw)), 1) /\
  RawDataImporter.obtain toy_load_dataset toy_to_pandas (RawDataImporter.mk "streams" None) 0
  = (Raise TypeError, RawDataImporter.mk "streams" (Some (RawDataImporter.NotDataFrame tt)), 1) /\
  RawDataImporter.obtain toy_load_dataset toy_to_pandas (RawDataImporter.mk "nothing" None) 0
  = (Raise (LibraryError "DatasetNotFoundError"), RawDataImporter.mk "nothing" None, 1).
Proof. repeat split; reflexivity. Qed.

(** * Further properties *)

(** ** transform: missing columns, and the table it hands to the dataset *)

Section TransformMore.

Import RawDataPreprocessor.

Lemma drop_missing (labels : list string) (df : DataFrame) :
  drop labels df
  = match filter (fun l => l ∉ columns df) labels with
    | [] => drop labels df
    | missing => Raise (KeyError missing)
    end.
Proof.
  unfold drop.
  rewrite (list_filter_iff (fun l => has_column l df = false) (fun l => l ∉ columns df))
    by (intros l; apply has_column_false).
  by destruct (filter _ labels).
Qed.

(** [transform] needs the columns input and text and nothing else: with
    both it succeeds, whether or not there is an instruction or an output
    column to rename, and keeps the raw table; without one of them it
    raises [KeyError] with exactly the labels that are missing, in the
    order input, text. *)
Theorem transform_needs_input_and_text (self : t) :
  (("input" ∈ columns (_raw_data self)) /\ ("text" ∈ columns (_raw_data self)) ->
   exists out, transform self = Ok (mk (_raw_data self) (Some out))) /\
  (("input" ∉ columns (_raw_data self)) \/ ("text" ∉ columns (_raw_data self)) ->
   filter (fun l => l ∉ columns (_raw_data self)) ["input"; "text"] ≠ [] /\
   transform self
   = Raise (KeyError (filter (fun l => l ∉ columns (_raw_data self)) ["input"; "text"]))).
Proof.
  split.
  - intros [Hi Ht]. rewrite transform_eq by done. by eexists.
  - intros Hmiss.
    assert (filter (fun l => l ∉ columns (_raw_data self)) ["input"; "text"] ≠ []) as Hne.
    { intros E. destruct Hmiss as [H | H].
      - apply (filter_nil_not_elem_of _ _ "input" E H), elem_of_cons. by left.
      - apply (filter_nil_not_elem_of _ _ "text" E H), elem_of_cons. right.
        apply elem_of_cons. by left. }
    split; [done |]. unfold transform. rewrite drop_missing.
    by destruct (filter _ ["input"; "text"]).
Qed.

Lemma rename_kept_inj (cols : list string) (k c : string) :
  "question" ∉ cols -> "target" ∉ cols -> k ∈ cols -> c ∈ cols ->
  rename_label renaming k = rename_label renaming c -> k = c.
Proof.
  intros Hq Ht Hk Hc Heq.
  destruct (rename_cases k) as [[-> Ek] | [[-> Ek] | (? & ? & Ek)]];
    destruct (rename_cases c) as [[-> Ec] | [[-> Ec] | (? & ? & Ec)]];
    rewrite ?Ek, ?Ec in Heq; try done; subst; done.
Qed.

(** The table that [transform] stores can be given to [TaskDataset] as
    it is: on a raw table with the four columns and without a question
    or target column of its own, the stored table has distinct labels and
    full rows, the dataset over it has as many samples as the raw table
    has rows, and sample [i] is the pair of the instruction cell and the
    output cell of raw row [i]. *)
Theorem transform_feeds_dataset (self : t) :
  wf (_raw_data self) ->
  "instruction" ∈ columns (_raw_data self) ->
  "input" ∈ columns (_raw_data self) ->
  "output" ∈ columns (_raw_data self) ->
  "text" ∈ columns (_raw_data self) ->
  "question" ∉ columns (_raw_data self) ->
  "target" ∉ columns (_raw_data self) ->
  exists out : DataFrame,
    transform self = Ok (mk (_raw_data self) (Some out)) /\
    wf out /\
    TaskDataset.__len__ (TaskDataset.mk out) = length (rows (_raw_data self)) /\
    (forall (i : nat) (r : Z * list cell),
        rows (_raw_data self) !! i = Some r ->
        exists q t,
          row_get (columns (_raw_data self)) r.2 "instruction" = Some q /\
          row_get (columns (_raw_data self)) r.2 "output" = Some t /\
          TaskDataset.__getitem__ (TaskDataset.mk out) (Z.of_nat i) = Ok [q; t]).
Proof.
  intros [Hnd Hrows] Hins Hinp Hout Htxt Hq Ht.
  rewrite transform_eq by done. eexists. split; [reflexivity |].
  set (raw := _raw_data self) in *.
  split; [| split].
  - split; simpl.
    + change (map ?f ?l) with (f <$> l). apply NoDup_fmap_2_strong.
      * intros k c [_ Hk]%list_elem_of_filter [_ Hc]%list_elem_of_filter.
        by apply (rename_kept_inj (columns raw)).
      * by apply NoDup_filter.
    + apply Forall_forall. intros o Ho. change (map ?f ?l) with (f <$> l) in Ho.
      apply list_elem_of_fmap in Ho as (r & -> & Hr). simpl.
      rewrite length_map. apply length_row_keep.
      by apply (proj1 (Forall_forall _ _) Hrows).
  - unfold TaskDataset.__len__, Pandas.len. simpl. by rewrite length_map.
  - intros i r Hr.
    assert (length r.2 = length (columns raw)) as Hlen.
    { apply (proj1 (Forall_forall _ _) Hrows). by eapply list_elem_of_lookup_2. }
    destruct (row_get_is_Some (columns raw) r.2 "instruction" Hins Hlen) as [q Hgq].
    destruct (row_get_is_Some (columns raw) r.2 "output" Hout Hlen) as [t Hgt].
    exists q, t. split; [done |]. split; [done |].
    apply (getitem_cells _ i (r.1, row_keep kept (columns raw) r.2)).
    + simpl. change (map ?f ?l) with (f <$> l). by rewrite list_lookup_fmap, Hr.
    + simpl. rewrite <- Hgq.
      apply (row_get_keep_rename kept (rename_label renaming) (columns raw) r.2 "instruction");
        [done |].
      intros k Hk _. by apply (rename_kept_inj (columns raw)).
    + simpl. rewrite <- Hgt.
      apply (row_get_keep_rename kept (rename_label renaming) (columns raw) r.2 "output");
        [done |].
      intros k Hk _. by apply (rename_kept_inj (columns raw)).
Qed.

End TransformMore.

(** ** analyze: errors, bounds of the report, order of the rows *)

Section AnalyzeMore.

Import RawDataPreprocessor.

(** The lookups of the report that [analyze] builds. *)
Lemma analyze_series (self : t) :
  "instruction" ∈ columns (_raw_data self) ->
  ~ ("index" ∈ columns (_raw_data self) /\ "level_0" ∈ columns (_raw_data self)) ->
  Forall (fun r => length r.2 = length (columns (_raw_data self))) (rows (_raw_data self)) ->
  analyze self =
    (shortest <- min_key_len (complete_instructions (_raw_data self)) ;;
     dataset_sample_min_len <- cell_len shortest ;;
     longest <- max_key_len (complete_instructions (_raw_data self)) ;;
     dataset_sample_max_len <- cell_len longest ;;
     Ok (<["dataset_number_of_samples" := length (rows (_raw_data self))]>
         (<["dataset_columns" := length (columns (_raw_data self))]>
         (<["dataset_duplicates" := sum (duplicated (_raw_data self))]>
         (<["dataset_empty_rows" := isna_sum_sum (replace (Text "") NA (_raw_data self))]>
         (<["dataset_sample_min_len" := dataset_sample_min_len]>
         (<["dataset_sample_max_len" := dataset_sample_max_len]> ∅))))))).
Proof.
  intros Hins Hidx Hrows.
  destruct (without_empty_rows_instruction _ Hins Hidx Hrows) as (w & Hw & Hget).
  unfold analyze. rewrite Hw. simpl. rewrite Hget. simpl.
  destruct (min_key_len _) as [x |]; simpl; [| done].
  by destruct (cell_len x).
Qed.

Lemma dropna_no_complete_row (df : DataFrame) :
  (forall r, r ∈ rows df -> ~ complete r.2) ->
  rows (dropna (replace (Text "") NA df)) = [].
Proof.
  intros Hnone. unfold dropna, replace. simpl.
  induction (rows df) as [| r rs IH]; [done |]. simpl map.
  rewrite filter_cons_False.
  - apply IH. intros r' Hr'. apply Hnone, elem_of_cons. by right.
  - simpl. rewrite (complete_blank_to_na r.2). apply Hnone, elem_of_cons. by left.
Qed.

(** What [analyze] does when the rows without empty cells are none. *)
Lemma analyze_no_rows_left (self : t) :
  rows (dropna (replace (Text "") NA (_raw_data self))) = [] ->
  analyze self
  = if has_column "index" (_raw_data self) && has_column "level_0" (_raw_data self)
    then Raise ValueError
    else if has_column "instruction" (_raw_data self) then Raise ValueError
         else Raise (KeyError ["instruction"]).
Proof.
  intros Hrows. unfold analyze, reset_index.
  set (clean := dropna (replace (Text "") NA (_raw_data self))) in *.
  assert (forall c, has_column c clean = has_column c (_raw_data self)) as Hhas by done.
  assert (columns clean = columns (_raw_data self)) as Hcols by done.
  clearbody clean.
  assert (forall name, name ≠ "instruction" ->
            getitem "instruction"
              (mkDataFrame (name :: columns clean)
                 (imap (fun i r => (Z.of_nat i, Num r.1 :: r.2)) (rows clean)))
            = if has_column "instruction" (_raw_data self) then Ok []
              else Raise (KeyError ["instruction"])) as Hget.
  { intros name Hname. unfold getitem.
    replace (has_column "instruction" (mkDataFrame _ _))
      with (has_column "instruction" (_raw_data self)).
    - destruct (has_column "instruction" (_raw_data self)); [| done].
      simpl. by rewrite Hrows.
    - apply eq_true_iff_eq. rewrite !has_column_true. simpl. rewrite elem_of_cons, Hcols.
      split; [by right | intros [? | ?]; [congruence | done]]. }
  rewrite !Hhas.
  destruct (has_column "index" (_raw_data self)) eqn:Ei; cbv iota.
  - rewrite ?Hhas. destruct (has_column "level_0" (_raw_data self)) eqn:El; [done |].
    simpl. rewrite Hget by done.
    by destruct (has_column "instruction" (_raw_data self)).
  - rewrite ?Hhas, ?Ei. simpl. rewrite Hget by done.
    by destruct (has_column "instruction" (_raw_data self)).
Qed.

(** Without a row free of empty cells, and so on a table without rows,
    [analyze] never returns a report.  It raises [ValueError] when the
    table has an instruction column (the minimum is taken over nothing)
    or both an index and a level_0 column, and [KeyError] for
    instruction otherwise. *)
Theorem analyze_no_complete_row (self : t) :
  (forall r, r ∈ rows (_raw_data self) -> ~ complete r.2) ->
  (("instruction" ∈ columns (_raw_data self)) \/
   (("index" ∈ columns (_raw_data self)) /\ ("level_0" ∈ columns (_raw_data self))) ->
   analyze self = Raise ValueError) /\
  (("instruction" ∉ columns (_raw_data self)) ->
   ~ (("index" ∈ columns (_raw_data self)) /\ ("level_0" ∈ columns (_raw_data self))) ->
   analyze self = Raise (KeyError ["instruction"])) /\
  (forall report, analyze self ≠ Ok report).
Proof.
  intros Hnone.
  pose proof (analyze_no_rows_left self (dropna_no_complete_row _ Hnone)) as Hrun.
  split; [| split].
  - intros [Hins | [Hi Hl]]; rewrite Hrun.
    + rewrite (proj2 (has_column_true _ _) Hins). by destruct (_ && _).
    + by rewrite (proj2 (has_column_true _ _) Hi), (proj2 (has_column_true _ _) Hl).
  - intros Hins Hidx. rewrite Hrun.
    rewrite (proj2 (has_column_false _ _) Hins).
    destruct (has_column "index" (_raw_data self)) eqn:Ei;
      destruct (has_column "level_0" (_raw_data self)) eqn:El; try done.
    destruct Hidx. split; by apply has_column_true.
  - intros report. rewrite Hrun.
    destruct (_ && _); [done |]. by destruct (has_column "instruction" (_raw_data self)).
Qed.

(** The columns decide two errors before any cell is read: with both an
    index and a level_0 column [analyze] raises [ValueError], whatever
    the rows; otherwise, without an instruction column, it raises
    [KeyError] for that label. *)
Theorem analyze_column_errors (self : t) :
  (("index" ∈ columns (_raw_data self)) /\ ("level_0" ∈ columns (_raw_data self)) ->
   analyze self = Raise ValueError) /\
  (~ (("index" ∈ columns (_raw_data self)) /\ ("level_0" ∈ columns (_raw_data self))) ->
   "instruction" ∉ columns (_raw_data self) ->
   analyze self = Raise (KeyError ["instruction"])).
Proof.
  set (clean := dropna (replace (Text "") NA (_raw_data self))).
  assert (forall c, has_column c clean = has_column c (_raw_data self)) as Hhas by done.
  split.
  - intros [Hi Hl]. unfold analyze, reset_index. fold clean. rewrite !Hhas.
    rewrite (proj2 (has_column_true _ _) Hi). cbv iota.
    by rewrite (proj2 (has_column_true _ _) Hl).
  - intros Hidx Hins. unfold analyze, reset_index. fold clean. rewrite !Hhas.
    assert (forall name, name ≠ "instruction" ->
              getitem "instruction"
                (mkDataFrame (name :: columns clean)
                   (imap (fun i r => (Z.of_nat i, Num r.1 :: r.2)) (rows clean)))
              = Raise (KeyError ["instruction"])) as Hget.
    { intros name Hname. unfold getitem.
      replace (has_column "instruction" _) with false; [done |].
      symmetry. apply has_column_false. simpl. apply not_elem_of_cons. split; [done |].
      exact Hins. }
    destruct (has_column "index" (_raw_data self)) eqn:Ei; cbv iota.
    + destruct (has_column "level_0" (_raw_data self)) eqn:El.
      * destruct Hidx. split; by apply has_column_true.
      * simpl. by rewrite Hget.
    + rewrite Ei. simpl. by rewrite Hget.
Qed.

(** A series on which a minimum by length is found holds text only. *)
Lemma min_loop_Ok_text (l : list cell) (best x : cell) (kbest : nat) :
  min_loop best kbest l = Ok x -> Forall is_text l.
Proof.
  revert best kbest. induction l as [| y l IH]; intros best kbest H; [constructor |].
  simpl in H. destruct y as [s | |]; simpl in H; try done.
  constructor; [by eexists |].
  destruct (Py.len s <? kbest)%nat; by eapply IH.
Qed.

Lemma min_key_len_Ok_text (l : list cell) (x : cell) :
  min_key_len l = Ok x -> Forall is_text l /\ l ≠ [].
Proof.
  destruct l as [| y l]; [done |]. simpl.
  destruct y as [s | |]; simpl; try done.
  intros H. split; [| done]. constructor; [by eexists | by eapply min_loop_Ok_text].
Qed.

Lemma length_remove_dups_pos {A : Type} `{EqDecision A} (l : list A) :
  l ≠ [] -> 0 < length (remove_dups l).
Proof.
  destruct l as [| x l]; [done |]. intros _.
  assert (x ∈ remove_dups (x :: l)) as Hx
    by (apply elem_of_remove_dups, elem_of_cons; by left).
  destruct (remove_dups (x :: l)); [by apply elem_of_nil in Hx | simpl; lia].
Qed.

Lemma length_getitem (label : string) (df : DataFrame) (series : Series) :
  getitem label df = Ok series -> length series = length (rows df).
Proof.
  unfold getitem. destruct (has_column label df); [| done].
  intros [= <-]. by rewrite length_map.
Qed.

Lemma length_without_empty_rows (df w : DataFrame) :
  reset_index (dropna (replace (Text "") NA df)) = Ok w ->
  length (rows w) <= length (rows df).
Proof.
  unfold reset_index. destruct (has_column _ _); [done |].
  intros [= <-]. simpl. rewrite length_imap.
  etrans; [apply length_filter |]. by rewrite length_map.
Qed.

(** Whenever [analyze] returns a report, on any table, the report counts
    at least one sample, fewer duplicates than samples, and a least
    instruction length that is not above the greatest. *)
Theorem analyze_report_bounds (self : t) (report : gmap string nat) :
  analyze self = Ok report ->
  exists samples duplicates shortest longest : nat,
    report !! "dataset_number_of_samples" = Some samples /\
    report !! "dataset_duplicates" = Some duplicates /\
    report !! "dataset_sample_min_len" = Some shortest /\
    report !! "dataset_sample_max_len" = Some longest /\
    1 <= samples /\ duplicates < samples /\ shortest <= longest.
Proof.
  unfold analyze. intros H.
  destruct (reset_index _) as [w |] eqn:Hw; simpl in H; [| done].
  destruct (getitem "instruction" w) as [series |] eqn:Hget; simpl in H; [| done].
  destruct (min_key_len series) as [x |] eqn:Hmin; simpl in H; [| done].
  destruct (cell_len x) as [mn |] eqn:Hx; simpl in H; [| done].
  destruct (max_key_len series) as [y |] eqn:Hmax; simpl in H; [| done].
  destruct (cell_len y) as [mx |] eqn:Hy; simpl in H; [| done].
  injection H as <-.
  destruct (min_key_len_Ok_text series x Hmin) as [Htext Hne].
  assert (1 <= length (rows (_raw_data self))) as Hn.
  { pose proof (length_getitem _ _ _ Hget) as H1.
    pose proof (length_without_empty_rows _ _ Hw) as H2.
    destruct series; [done | simpl in *; lia]. }
  eexists _, _, mn, mx.
  split; [by simplify_map_eq |]. split; [by simplify_map_eq |].
  split; [by simplify_map_eq |]. split; [by simplify_map_eq |].
  split; [done |]. split.
  - unfold duplicated. destruct (columns (_raw_data self)) eqn:Ecols;
      [unfold Pandas.sum; simpl; lia |].
    pose proof (sum_duplicated_from [] (map snd (rows (_raw_data self)))) as Hsum.
    simpl in Hsum. rewrite length_map in Hsum.
    assert (0 < length (remove_dups (map snd (rows (_raw_data self))))) as Hpos.
    { apply length_remove_dups_pos. intros E. apply (f_equal length) in E.
      rewrite length_map in E. simpl in E. lia. }
    lia.
  - destruct (min_key_len_spec series Htext Hne) as (x' & m & Hx' & Hm & _ & Hlow).
    destruct (max_key_len_spec series Htext Hne) as (y' & m' & Hy' & Hm' & Hyin & _).
    rewrite Hmin in Hx'. injection Hx' as <-. rewrite Hmax in Hy'. injection Hy' as <-.
    rewrite Hx in Hm. injection Hm as <-.
    by apply (proj1 (Forall_forall _ _) Hlow y Hyin).
Qed.

(** A series with a cell that is not text has no minimum and no maximum
    by length: [len] raises [TypeError] on that cell. *)
Lemma text_or_not (l : list cell) :
  Forall is_text l \/ Exists (fun x => ~ is_text x) l.
Proof.
  induction l as [| x l [IH | IH]].
  - left. constructor.
  - destruct x as [s | |].
    + left. constructor; [by eexists | done].
    + right. apply Exists_cons_hd. by intros [s ?].
    + right. apply Exists_cons_hd. by intros [s ?].
  - right. by apply Exists_cons_tl.
Qed.

Lemma cell_len_not_text (x : cell) : ~ is_text x -> cell_len x = Raise TypeError.
Proof. destruct x as [s | |]; [| done | done]. intros H. destruct H. by eexists. Qed.

Lemma min_loop_not_text (l : list cell) (best : cell) (kbest : nat) :
  Exists (fun x => ~ is_text x) l -> min_loop best kbest l = Raise TypeError.
Proof.
  intros H. revert best kbest. induction H as [x l Hx | x l _ IH]; intros best kbest; simpl.
  - by rewrite cell_len_not_text.
  - destruct (cell_len x) as [k | e] eqn:E; simpl.
    + destruct (k <? kbest)%nat; apply IH.
    + destruct x; simpl in E; congruence.
Qed.

Lemma max_loop_not_text (l : list cell) (best : cell) (kbest : nat) :
  Exists (fun x => ~ is_text x) l -> max_loop best kbest l = Raise TypeError.
Proof.
  intros H. revert best kbest. induction H as [x l Hx | x l _ IH]; intros best kbest; simpl.
  - by rewrite cell_len_not_text.
  - destruct (cell_len x) as [k | e] eqn:E; simpl.
    + destruct (kbest <? k)%nat; apply IH.
    + destruct x; simpl in E; congruence.
Qed.

Lemma min_key_len_not_text (l : list cell) :
  Exists (fun x => ~ is_text x) l -> min_key_len l = Raise TypeError.
Proof.
  intros H. inversion H as [x l' Hx | x l' Hl]; subst; simpl.
  - by rewrite cell_len_not_text.
  - destruct (cell_len x) as [k | e] eqn:E; simpl.
    + by apply min_loop_not_text.
    + destruct x; simpl in E; congruence.
Qed.

Lemma max_key_len_not_text (l : list cell) :
  Exists (fun x => ~ is_text x) l -> max_key_len l = Raise TypeError.
Proof.
  intros H. inversion H as [x l' Hx | x l' Hl]; subst; simpl.
  - by rewrite cell_len_not_text.
  - destruct (cell_len x) as [k | e] eqn:E; simpl.
    + by apply max_loop_not_text.
    + destruct x; simpl in E; congruence.
Qed.

(** The least and the greatest length do not depend on the order of the
    series, nor does the error when there is none. *)
Lemma min_len_Permutation (l l' : list cell) :
  l ≡ₚ l' ->
  (x <- min_key_len l ;; cell_len x) = (x <- min_key_len l' ;; cell_len x).
Proof.
  intros Hperm. destruct (text_or_not l) as [Htext | Hnot].
  - destruct l as [| y l0] eqn:El.
    + apply Permutation_nil_l in Hperm. by subst.
    + rewrite <- El in *. assert (l ≠ []) as Hne by (by rewrite El).
      assert (Forall is_text l') as Htext' by (by rewrite <- Hperm).
      assert (l' ≠ []) as Hne'.
      { intros ->. apply Permutation_nil_r in Hperm. done. }
      destruct (min_key_len_spec l Htext Hne) as (x & m & -> & Hm & Hx & Hlow).
      destruct (min_key_len_spec l' Htext' Hne') as (x' & m' & -> & Hm' & Hx' & Hlow').
      simpl. rewrite Hm, Hm'. f_equal.
      assert (m <= m').
      { apply (proj1 (Forall_forall _ _) Hlow x'); [by rewrite Hperm | done]. }
      assert (m' <= m).
      { apply (proj1 (Forall_forall _ _) Hlow' x); [by rewrite <- Hperm | done]. }
      lia.
  - rewrite (min_key_len_not_text l Hnot).
    rewrite (min_key_len_not_text l'); [done |]. by rewrite <- Hperm.
Qed.

Lemma max_len_Permutation (l l' : list cell) :
  l ≡ₚ l' ->
  (x <- max_key_len l ;; cell_len x) = (x <- max_key_len l' ;; cell_len x).
Proof.
  intros Hperm. destruct (text_or_not l) as [Htext | Hnot].
  - destruct l as [| y l0] eqn:El.
    + apply Permutation_nil_l in Hperm. by subst.
    + rewrite <- El in *. assert (l ≠ []) as Hne by (by rewrite El).
      assert (Forall is_text l') as Htext' by (by rewrite <- Hperm).
      assert (l' ≠ []) as Hne'.
      { intros ->. apply Permutation_nil_r in Hperm. done. }
      destruct (max_key_len_spec l Htext Hne) as (x & m & -> & Hm & Hx & Hhigh).
      destruct (max_key_len_spec l' Htext' Hne') as (x' & m' & -> & Hm' & Hx' & Hhigh').
      simpl. rewrite Hm, Hm'. f_equal.
      assert (m' <= m).
      { apply (proj1 (Forall_forall _ _) Hhigh x'); [by rewrite Hperm | done]. }
      assert (m <= m').
      { apply (proj1 (Forall_forall _ _) Hhigh' x); [by rewrite <- Hperm | done]. }
      lia.
  - rewrite (max_key_len_not_text l Hnot).
    rewrite (max_key_len_not_text l'); [done |]. by rewrite <- Hperm.
Qed.

Lemma list_sum_Permutation (l l' : list nat) : l ≡ₚ l' -> list_sum l = list_sum l'.
Proof. induction 1; simpl; lia. Qed.

Lemma length_remove_dups_Permutation {A : Type} `{EqDecision A} (l l' : list A) :
  l ≡ₚ l' -> length (remove_dups l) = length (remove_dups l').
Proof.
  intros Hperm. apply Permutation_length, NoDup_Permutation; try apply NoDup_remove_dups.
  intros x. by rewrite !elem_of_remove_dups, Hperm.
Qed.

(** The outcome of [analyze] does not depend on the order of the rows:
    two tables with the same columns and the same rows in another order
    give the same report, or the same exception. *)
Theorem analyze_row_order (self1 self2 : t) :
  wf (_raw_data self1) ->
  "instruction" ∈ columns (_raw_data self1) ->
  ~ ("index" ∈ columns (_raw_data self1) /\ "level_0" ∈ columns (_raw_data self1)) ->
  columns (_raw_data self2) = columns (_raw_data self1) ->
  rows (_raw_data self2) ≡ₚ rows (_raw_data self1) ->
  analyze self2 = analyze self1.
Proof.
  intros [Hnd Hrows] Hins Hidx Hcols Hperm.
  rewrite (analyze_series self1) by done.
  rewrite (analyze_series self2) by (rewrite ?Hcols, ?Hperm; done).
  assert (complete_instructions (_raw_data self2) ≡ₚ complete_instructions (_raw_data self1))
    as Hseries.
  { unfold complete_instructions. rewrite Hcols.
    change (map ?f ?l) with (f <$> l). by rewrite Hperm. }
  pose proof (min_len_Permutation _ _ Hseries) as Hmin.
  pose proof (max_len_Permutation _ _ Hseries) as Hmax.
  assert (sum (duplicated (_raw_data self2)) = sum (duplicated (_raw_data self1))) as ->.
  { assert (columns (_raw_data self1) ≠ []) as Hne.
    { intros E. rewrite E in Hins. by apply elem_of_nil in Hins. }
    rewrite !sum_duplicated by (rewrite ?Hcols; done).
    rewrite (Permutation_length Hperm). f_equal.
    apply length_remove_dups_Permutation.
    change (map ?f ?l) with (f <$> l). by rewrite Hperm. }
  rewrite !isna_sum_sum_replace.
  assert (list_sum (map (fun r => length (filter is_empty r.2)) (rows (_raw_data self2)))
          = list_sum (map (fun r => length (filter is_empty r.2)) (rows (_raw_data self1))))
    as ->.
  { apply list_sum_Permutation. change (map ?f ?l) with (f <$> l). by rewrite Hperm. }
  rewrite (Permutation_length Hperm), Hcols.
  destruct (min_key_len (complete_instructions (_raw_data self1))) as [x1 | e1];
    destruct (min_key_len (complete_instructions (_raw_data self2))) as [x2 | e2];
    simpl in *; try congruence.
  - rewrite Hmin.
    destruct (cell_len x1) as [mn |]; simpl; [| done].
    destruct (max_key_len (complete_instructions (_raw_data self1))) as [y1 | f1];
      destruct (max_key_len (complete_instructions (_raw_data self2))) as [y2 | f2];
      simpl in *; try congruence;
      first [by rewrite Hmax | by rewrite <- Hmax].
  - first [by rewrite Hmin | by rewrite <- Hmin].
  - first [by rewrite Hmin | by rewrite <- Hmin].
Qed.

End AnalyzeMore.

(** ** TaskDataset: bounds and missing columns *)

Section DatasetMore.

(** Indexing follows [iloc]: a position outside [-len, len) raises
    [IndexError], whatever the columns, and a negative position [i]
    inside gives what position [len + i] gives. *)
Theorem getitem_index_bounds (data : DataFrame) (i : Z) :
  let n := Z.of_nat (TaskDataset.__len__ (TaskDataset.mk data)) in
  ((i < - n \/ n <= i)%Z ->
   TaskDataset.__getitem__ (TaskDataset.mk data) i = Raise IndexError) /\
  ((- n <= i < 0)%Z ->
   TaskDataset.__getitem__ (TaskDataset.mk data) i
   = TaskDataset.__getitem__ (TaskDataset.mk data) (i + n)).
Proof.
  intros n. unfold n, TaskDataset.__len__, Pandas.len, TaskDataset.__getitem__. simpl.
  split.
  - intros Hout. unfold iloc. cbv zeta.
    destruct (Z.ltb_spec i 0) as [Hneg | Hpos].
    + destruct (Z.ltb_spec (i + Z.of_nat (length (rows data))) 0) as [_ | ?]; [done | lia].
    + destruct (Z.ltb_spec i 0) as [? | _]; [lia |].
      destruct (Z.leb_spec (Z.of_nat (length (rows data))) i) as [_ | ?]; [done | lia].
  - intros Hin.
    assert (iloc i data = iloc (i + Z.of_nat (length (rows data))) data) as ->; [| done].
    unfold iloc. cbv zeta.
    destruct (Z.ltb_spec i 0) as [_ | ?]; [| lia].
    destruct (Z.ltb_spec (i + Z.of_nat (length (rows data))) 0) as [? | _]; [lia |].
    replace (i + Z.of_nat (length (rows data)) <? 0)%Z with false
      by (symmetry; apply Z.ltb_ge; lia).
    done.
Qed.

Lemma row_get_None (cols : list string) (r : list cell) (c : string) :
  c ∉ cols -> row_get cols r c = None.
Proof.
  revert r. induction cols as [| k cols IH]; intros [| x r] Hc; simpl; try done.
  apply not_elem_of_cons in Hc as [Hck Hc].
  rewrite (proj2 (String.eqb_neq c k) Hck). by apply IH.
Qed.

(** At a position that exists, a table without a question column raises
    [KeyError] for question; with a question column but no target column
    it raises [KeyError] for target. *)
Theorem getitem_missing_column (data : DataFrame) (i : nat) (r : Z * list cell) :
  rows data !! i = Some r ->
  length r.2 = length (columns data) ->
  ("question" ∉ columns data ->
   TaskDataset.__getitem__ (TaskDataset.mk data) (Z.of_nat i) = Raise (KeyError ["question"])) /\
  ("question" ∈ columns data -> "target" ∉ columns data ->
   TaskDataset.__getitem__ (TaskDataset.mk data) (Z.of_nat i) = Raise (KeyError ["target"])).
Proof.
  intros Hr Hlen. unfold TaskDataset.__getitem__. simpl.
  rewrite (iloc_lookup _ _ _ Hr). simpl. unfold row_getitem. split.
  - intros Hq. by rewrite (row_get_None _ _ _ Hq).
  - intros Hq Ht. destruct (row_get_is_Some (columns data) r.2 "question" Hq Hlen) as [q ->].
    simpl. by rewrite (row_get_None _ _ _ Ht).
Qed.

End DatasetMore.

(** ** _infer_batch: the number of decoded texts and short texts *)

Section InferBatchMore.

Context {BatchEncoding Generated : Type}.
Implicit Types (self : LLMPipeline.t BatchEncoding Generated).
Implicit Types (model : LLMPipeline.Model BatchEncoding Generated).

Import LLMPipeline.

Lemma strip_prompts_overflow (qs : list string) (predictions : list string) (i : nat) :
  i <= length qs -> length qs < i + length predictions ->
  strip_prompts (map Text qs) i predictions = Raise IndexError.
Proof.
  revert i. induction predictions as [| p ps IH]; intros i Hi Hlen; simpl in *; [lia |].
  change (map Text qs) with (Text <$> qs) at 1. rewrite list_lookup_fmap.
  destruct (qs !! i) as [q |] eqn:Hq; simpl; [| done].
  apply lookup_lt_Some in Hq. rewrite IH; [done | lia | lia].
Qed.

(** [_infer_batch] goes by the decoded texts: when the model gives no
    more of them than there are questions, it returns one result for
    each decoded text; when it gives more, the lookup of the question
    raises [IndexError]. *)
Theorem infer_batch_counts self model (questions : list string) (rest : list (list cell)) :
  _model self = Some model ->
  (length (decoded self model questions) <= length questions ->
   exists out, _infer_batch self (map Text questions :: rest) = Ok out /\
               length out = length (decoded self model questions)) /\
  (length questions < length (decoded self model questions) ->
   _infer_batch self (map Text questions :: rest) = Raise IndexError).
Proof.
  intros Hmodel. split.
  - intros Hlen. exists (answers self model questions).
    split; [by apply infer_batch_text |].
    unfold answers. rewrite length_zip_with. lia.
  - intros Hlen. unfold _infer_batch. simpl.
    rewrite texts_of_Text. simpl. rewrite Hmodel.
    fold (decoded self model questions). apply strip_prompts_overflow; lia.
Qed.

Lemma length_slice_from (n : nat) (s : string) :
  String.length (slice_from n s) = String.length s - n.
Proof.
  revert s. induction n as [| n IH]; intros s; simpl; [lia |].
  destruct s as [| c s]; [done |]. simpl. apply IH.
Qed.

(** Stripping never raises: every result has the length of its decoded
    text less the length of the question and one, and is empty when the
    decoded text is not longer than the question. *)
Theorem infer_batch_result_length self model (questions : list string)
    (rest : list (list cell)) (out : list string) (i : nat) (q p a : string) :
  _model self = Some model ->
  length (decoded self model questions) <= length questions ->
  _infer_batch self (map Text questions :: rest) = Ok out ->
  questions !! i = Some q ->
  decoded self model questions !! i = Some p ->
  out !! i = Some a ->
  String.length a = String.length p - (String.length q + 1) /\
  (String.length p <= String.length q -> a = "").
Proof.
  intros Hmodel Hlen Hrun Hq Hp Ha.
  rewrite (infer_batch_text self model questions rest Hmodel Hlen) in Hrun.
  injection Hrun as <-. unfold answers in Ha.
  rewrite lookup_zip_with, Hq in Ha. simpl in Ha. rewrite Hp in Ha. simpl in Ha.
  injection Ha as <-. unfold Py.len.
  split; [apply length_slice_from |].
  intros Hshort.
  pose proof (length_slice_from (String.length q + 1) p) as H.
  destruct (slice_from (String.length q + 1) p); [done | simpl in H; lia].
Qed.

End InferBatchMore.

(** ** infer_dataset: empty tables, what it changes, running it again *)

Section InferDatasetMore.

Context {BatchEncoding Generated : Type}.
Implicit Types (self : LLMPipeline.t BatchEncoding Generated).
Implicit Types (model : LLMPipeline.Model BatchEncoding Generated).

Import LLMPipeline.

(** On a table without rows the model is never asked: with a target
    column and a positive batch size [infer_dataset] succeeds, even with
    no model loaded and no question column, returns the two columns
    without rows, and leaves the table without rows, with a predictions
    column. *)
Theorem infer_dataset_without_rows self (data : DataFrame) :
  _dataset self = TaskDataset.mk data ->
  rows data = [] ->
  "target" ∈ columns data ->
  (0 < _batch_size self)%Z ->
  exists data' out : DataFrame,
    infer_dataset self = (Ok out, set_data self data') /\
    columns out = ["target"; "predictions"] /\ rows out = [] /\
    rows data' = [] /\ "predictions" ∈ columns data'.
Proof.
  intros Hds Hrows Htarget Hbs. unfold infer_dataset, Torch.DataLoader. rewrite Hds.
  destruct (Z.leb_spec (_batch_size self) 0) as [? | _]; [lia |].
  unfold TaskDataset.__len__, Pandas.len, TaskDataset.data. simpl TaskDataset._data.
  rewrite Hrows. simpl. unfold setitem. rewrite Hrows. simpl.
  set (data' := setitem_rows "predictions" [] (columns data) [] (has_column "predictions" data)).
  assert (rows data' = []) as Hrows' by (unfold data', setitem_rows; by destruct (has_column _ _)).
  assert ("predictions" ∈ columns data' /\ "target" ∈ columns data') as [Hp Ht].
  { unfold data', setitem_rows. destruct (has_column "predictions" data) eqn:E; simpl.
    - split; [by apply has_column_true | done].
    - split; apply elem_of_app; [right; apply elem_of_cons; by left | by left]. }
  rewrite getitem_list_present by (repeat constructor; done).
  eexists data', _. split; [reflexivity |]. simpl. by rewrite Hrows'.
Qed.

Lemma setitem_has_column (l : string) (vals : list cell) (df df' : DataFrame) :
  setitem l vals df = Ok df' -> l ∈ columns df'.
Proof.
  assert (forall rs, l ∈ columns (setitem_rows l vals (columns df) rs (has_column l df))) as H.
  { intros rs. unfold setitem_rows. destruct (has_column l df) eqn:E; simpl.
    - by apply has_column_true.
    - apply elem_of_app. right. apply elem_of_cons. by left. }
  unfold setitem. destruct (rows df) as [| r rs], vals as [| x vals]; simpl;
    try (intros [= <-]; apply H); try done.
  destruct (length vals =? length rs)%nat; [| done]. intros [= <-]. apply H.
Qed.

(** [infer_dataset] changes nothing of the pipeline but the table behind
    the dataset, and that only by assigning the column predictions; when
    it raises, the table is as before, unless the exception is the
    [KeyError] for a missing target column, raised after the
    assignment. *)
Theorem infer_dataset_changes_table_only self :
  (_model_name (infer_dataset self).2 = _model_name self /\
   _max_length (infer_dataset self).2 = _max_length self /\
   _batch_size (infer_dataset self).2 = _batch_size self /\
   _device (infer_dataset self).2 = _device self /\
   _model (infer_dataset self).2 = _model self /\
   _tokenizer (infer_dataset self).2 = _tokenizer self) /\
  ((infer_dataset self).2 = self \/
   exists prediction data',
     setitem "predictions" (map Text prediction) (TaskDataset.data (_dataset self)) = Ok data' /\
     (infer_dataset self).2 = set_data self data') /\
  (forall e, (infer_dataset self).1 = Raise e ->
     (infer_dataset self).2 = self \/ e = KeyError ["target"]).
Proof.
  unfold infer_dataset.
  destruct (Torch.DataLoader _ _ _ _) as [loader | e0]; simpl;
    [| repeat split; auto].
  destruct (for_batch self loader []) as [prediction | e1]; simpl;
    [| repeat split; auto].
  destruct (setitem _ _ _) as [data' | e2] eqn:Hset; simpl;
    [| repeat split; auto].
  split; [done |]. split; [right; by exists prediction, data' |].
  intros e He. right.
  pose proof (setitem_has_column _ _ _ _ Hset) as Hp.
  unfold getitem_list in He. simpl in He.
  rewrite filter_cons in He.
  destruct (decide (has_column "target" data' = false)) as [Ht | Ht].
  - rewrite filter_cons_False in He
      by (rewrite (proj2 (has_column_true _ _) Hp); done).
    rewrite filter_nil in He. by injection He as <-.
  - rewrite filter_cons_False in He
      by (rewrite (proj2 (has_column_true _ _) Hp); done).
    by rewrite filter_nil in He.
Qed.

Lemma row_set_same (cols : list string) (r : list cell) (l : string) (x : cell) :
  row_get cols r l = Some x -> row_set cols r l x = r.
Proof.
  revert r. induction cols as [| k cols IH]; intros [| y r]; simpl; try done.
  destruct (String.eqb l k); [by intros [= ->] |].
  intros H. by rewrite IH.
Qed.

Lemma predict_batches_set_data self (data : DataFrame) (batches : list (list string))
    (prediction : list string) :
  predict_batches (set_data self data) batches prediction
  = predict_batches self batches prediction.
Proof.
  revert prediction. induction batches as [| qs batches IH]; intros prediction; [done |].
  simpl. change (_infer_batch (set_data self data) [map Text qs])
    with (_infer_batch self [map Text qs]).
  destruct (_infer_batch self [map Text qs]); simpl; [apply IH | done].
Qed.

(** One run of [infer_dataset] on a table of text, with what the second
    run needs to know of the table it leaves. *)
Lemma infer_dataset_run self model (data : DataFrame) (samples : list (string * string)) :
  _dataset self = TaskDataset.mk data ->
  text_dataset data samples ->
  (0 < _batch_size self)%Z ->
  _model self = Some model ->
  one_per_text self model ->
  exists (prediction : list string) (data' out : DataFrame),
    prediction = concat (map (answers self model)
                           (Torch.batch_sampler (Z.to_nat (_batch_size self)) []
                              (map fst samples))) /\
    length prediction = length (rows data) /\
    setitem "predictions" (map Text prediction) data = Ok data' /\
    getitem_list ["target"; "predictions"] data' = Ok out /\
    infer_dataset self = (Ok out, set_data self data') /\
    columns data' = (if has_column "predictions" data then columns data
                     else columns data ++ ["predictions"])%list /\
    map fst (rows data') = map fst (rows data) /\
    (forall i, cell_at data' i "predictions" = Text <$> prediction !! i) /\
    (forall i c, c ≠ "predictions" -> cell_at data' i c = cell_at data i c) /\
    (forall i r s, rows data !! i = Some r -> samples !! i = Some s ->
       exists p, prediction !! i = Some p /\
                 rows out !! i = Some (r.1, [Text s.2; Text p])).
Proof.
  intros Hds Hdata Hbs Hmodel Hone.
  pose proof Hdata as ([Hnd Hrows] & Hq & Ht & Hall).
  set (prediction := concat (map (answers self model)
                               (Torch.batch_sampler (Z.to_nat (_batch_size self)) []
                                  (map fst samples)))).
  assert (length prediction = length (rows data)) as Hlen.
  { unfold prediction. rewrite length_concat_map.
    - rewrite concat_batch_sampler. simpl.
      by rewrite length_map, (text_dataset_length data samples).
    - intros c. by apply length_answers. }
  destruct (setitem_spec "predictions" (map Text prediction) data Hrows)
    as (data' & Hset & Hcols & Hfst & Hpred & Hother); [by rewrite length_map |].
  destruct (predictions_view data data' (map Text prediction))
    as (out & Hout & _ & _ & _ & Horows);
    [done | done | by rewrite length_map | done |].
  exists prediction, data', out.
  split; [done |]. split; [done |]. split; [done |]. split; [done |].
  split.
  { rewrite (infer_dataset_eq self data samples Hds Hdata Hbs).
    rewrite (predict_batches_answers self model) by done.
    simpl app. fold prediction. by rewrite Hset, Hout. }
  split; [done |]. split; [done |].
  split.
  { intros i. rewrite Hpred. change (map Text prediction) with (Text <$> prediction).
    by rewrite list_lookup_fmap. }
  split; [done |].
  intros i r s Hr Hs.
  destruct (Horows i r Hr) as (x & Hx & Hrow).
  change (map Text prediction) with (Text <$> prediction) in Hx.
  rewrite list_lookup_fmap in Hx.
  destruct (prediction !! i) as [p |] eqn:Hp; [| done]. injection Hx as <-.
  exists p. split; [done |]. rewrite Hrow.
  destruct (Forall2_lookup_lr _ _ _ _ _ _ Hall Hr Hs) as [_ ->]. done.
Qed.

(** Running [infer_dataset] a second time, on the pipeline the first run
    leaves, gives the same result and leaves the table as it is: the
    column predictions is overwritten with the same predictions, not
    added again. *)
Theorem infer_dataset_again self model (data : DataFrame)
    (samples : list (string * string)) :
  _dataset self = TaskDataset.mk data ->
  text_dataset data samples ->
  (0 < _batch_size self)%Z ->
  _model self = Some model ->
  one_per_text self model ->
  exists out self',
    infer_dataset self = (Ok out, self') /\
    infer_dataset self' = (Ok out, self').
Proof.
  intros Hds Hdata Hbs Hmodel Hone.
  destruct (infer_dataset_run self model data samples Hds Hdata Hbs Hmodel Hone)
    as (prediction & data' & out & Hpr & Hlen & Hset & Hout & Hrun & Hcols & Hfst
        & Hpred & Hother & _).
  exists out, (set_data self data'). split; [done |].
  pose proof Hdata as ([Hnd Hrows] & Hq & Ht & Hall).
  assert (length (rows data') = length (rows data)) as Hlen'.
  { by rewrite <- (length_map fst), Hfst, length_map. }
  assert ("predictions" ∈ columns data') as Hp by (by eapply setitem_has_column).
  assert (forall c, c ∈ columns data -> c ∈ columns data') as Hkeep.
  { intros c Hc. rewrite Hcols. destruct (has_column "predictions" data); [done |].
    apply elem_of_app. by left. }
  assert (text_dataset data' samples) as Hdata'.
  { split; [| split; [by apply Hkeep | split; [by apply Hkeep |]]].
    - split.
      + rewrite Hcols. destruct (has_column "predictions" data) eqn:E; [done |].
        apply NoDup_app. split; [done |]. split; [| apply NoDup_singleton].
        intros c Hc ->%list_elem_of_singleton.
        by apply has_column_false in E.
      + apply Forall_forall. intros r' Hr'.
        apply list_elem_of_lookup in Hr' as [i Hi].
        destruct (lookup_lt_is_Some_2 (rows data) i) as [r Hr].
        { rewrite <- Hlen'. by eapply lookup_lt_Some. }
        assert (length r.2 = length (columns data)) as Hw.
        { apply (proj1 (Forall_forall _ _) Hrows). by eapply list_elem_of_lookup_2. }
        destruct (lookup_lt_is_Some_2 (map Text prediction) i) as [x Hx].
        { rewrite length_map, Hlen. by eapply lookup_lt_Some. }
        rewrite (setitem_same_length "predictions" (map Text prediction) data)
          in Hset by (by rewrite length_map).
        injection Hset as <-. unfold setitem_rows in *.
        destruct (has_column "predictions" data) eqn:E; simpl in *.
        * rewrite lookup_zip_with, Hr in Hi. simpl in Hi. rewrite Hx in Hi.
          injection Hi as <-. simpl.
          clear -Hw. revert Hw. generalize (columns data). generalize r.2.
          induction l as [| y l IH]; intros [| k cols] Hw; simpl in *; try done.
          destruct (String.eqb "predictions" k); simpl; [done |]. f_equal. apply IH. lia.
        * rewrite lookup_zip_with, Hr in Hi. simpl in Hi. rewrite Hx in Hi.
          injection Hi as <-. simpl. rewrite !length_app, Hw. done.
    - apply Forall2_same_length_lookup_2.
      + rewrite Hlen'. by eapply Forall2_length.
      + intros i r' s Hr' Hs.
        destruct (Forall2_lookup_r _ _ _ _ _ Hall Hs) as (r & Hr & Hgq & Hgt).
        pose proof (Hother i "question") as H1. pose proof (Hother i "target") as H2.
        unfold cell_at in H1, H2. rewrite Hr, Hr' in H1, H2. simpl in H1, H2.
        by rewrite H1, H2. }
  assert (setitem "predictions" (map Text prediction) data' = Ok data') as Hset'.
  { rewrite setitem_same_length by (by rewrite length_map, Hlen, Hlen').
    unfold setitem_rows. rewrite (proj2 (has_column_true _ _) Hp).
    destruct data' as [cols' rows']. simpl in *. do 2 f_equal.
    apply list_eq. intros i. rewrite lookup_zip_with.
    destruct (rows' !! i) as [r' |] eqn:Hr'; simpl; [| done].
    pose proof (Hpred i) as Hcell. unfold cell_at in Hcell. simpl in Hcell.
    rewrite Hr' in Hcell. simpl in Hcell.
    change (map Text prediction) with (Text <$> prediction).
    rewrite list_lookup_fmap.
    destruct (prediction !! i) as [p |] eqn:Hpi; simpl in *.
    - rewrite (row_set_same _ _ _ _ Hcell). by destruct r'.
    - apply lookup_ge_None_1 in Hpi. apply lookup_lt_Some in Hr'. lia. }
  rewrite (infer_dataset_eq (set_data self data') data' samples); try done.
  rewrite predict_batches_set_data.
  change (_batch_size (set_data self data')) with (_batch_size self).
  rewrite (predict_batches_answers self model) by done.
  simpl app. rewrite <- Hpr. by rewrite Hset', Hout.
Qed.

(** With batch size 1 every row is predicted on its own: the prediction
    stored for a row is what [infer_sample] returns for the sample that
    holds the question of that row alone. *)
Theorem infer_dataset_one_by_one self model (data : DataFrame)
    (samples : list (string * string)) :
  _dataset self = TaskDataset.mk data ->
  text_dataset data samples ->
  _batch_size self = 1%Z ->
  _model self = Some model ->
  one_per_text self model ->
  exists out,
    (infer_dataset self).1 = Ok out /\
    (forall i r s, rows data !! i = Some r -> samples !! i = Some s ->
       exists p, infer_sample self [Text s.1] = Ok (Some p) /\
                 rows out !! i = Some (r.1, [Text s.2; Text p])).
Proof.
  intros Hds Hdata Hbs Hmodel Hone.
  destruct (infer_dataset_run self model data samples Hds Hdata) as
    (prediction & data' & out & Hpr & Hlen & _ & _ & Hrun & _ & _ & _ & _ & Hrows);
    [lia | done | done |].
  exists out. split; [by rewrite Hrun |].
  intros i r s Hr Hs. destruct (Hrows i r s Hr Hs) as (p & Hp & Hrow).
  exists p. split; [| done].
  rewrite (infer_sample_question_only self model) by (rewrite ?Hone; done).
  f_equal. rewrite <- Hp, Hpr, Hbs.
  rewrite (concat_batches_lookup (answers self model) (Z.to_nat 1) (map fst samples) i).
  - change (Z.to_nat 1) with 1. rewrite Nat.div_1_r, Nat.mul_1_r, Nat.mod_1_r.
    assert (map fst samples !! i = Some s.1) as Hq.
    { change (map fst samples) with (fst <$> samples). by rewrite list_lookup_fmap, Hs. }
    rewrite (drop_S _ _ _ Hq). simpl. by rewrite take_0.
  - change (Z.to_nat 1) with 1. lia.
  - intros c. by apply length_answers.
  - rewrite length_map. by eapply lookup_lt_Some.
Qed.

End InferDatasetMore.

(** ** The constructor of the pipeline *)

Section Constructor.

Context {BatchEncoding Generated : Type}.
Variable model_from_pretrained : string -> result (LLMPipeline.Model BatchEncoding Generated).
Variable tokenizer_from_pretrained :
  string -> result (LLMPipeline.Tokenizer BatchEncoding Generated).
Variable pad_with_eos :
  LLMPipeline.Tokenizer BatchEncoding Generated -> LLMPipeline.Tokenizer BatchEncoding Generated.

Import LLMPipeline.

Lemma strip_prompts_no_AttributeError (first : list cell) (predictions : list string)
    (i : nat) :
  strip_prompts first i predictions ≠ Raise AttributeError.
Proof.
  revert i. induction predictions as [| p ps IH]; intros i; simpl; [done |].
  destruct (first !! i) as [[s | |] |]; simpl; try done.
  specialize (IH (S i)). by destruct (strip_prompts first (S i) ps).
Qed.

Lemma texts_of_no_AttributeError (xs : list cell) : texts_of xs ≠ Raise AttributeError.
Proof.
  induction xs as [| [s | |] xs IH]; simpl; try done.
  by destruct (texts_of xs).
Qed.

(** A pipeline that the constructor returns has a model loaded and holds
    the dataset and the sizes it was given.  So on such a pipeline
    [infer_sample] never returns [None], and [_infer_batch] never fails
    for want of a model. *)
Theorem constructed_pipeline_has_model (model_name : string) (dataset : TaskDataset.t)
    (max_length batch_size : Z) (device : string)
    (self : LLMPipeline.t BatchEncoding Generated) :
  __init__ model_from_pretrained tokenizer_from_pretrained pad_with_eos
    model_name dataset max_length batch_size device = Ok self ->
  (exists model, model_from_pretrained model_name = Ok model /\ _model self = Some model) /\
  _dataset self = dataset /\ _max_length self = max_length /\ _batch_size self = batch_size /\
  (forall sample, infer_sample self sample ≠ Ok None) /\
  (forall sample_batch, _infer_batch self sample_batch ≠ Raise AttributeError).
Proof.
  unfold __init__. intros H.
  destruct (model_from_pretrained model_name) as [model |] eqn:Hm; simpl in H; [| done].
  destruct (tokenizer_from_pretrained model_name) as [tok |]; simpl in H; [| done].
  injection H as <-. simpl.
  split; [by exists model |]. split; [done |]. split; [done |]. split; [done |].
  split.
  - intros sample. unfold infer_sample. simpl.
    destruct (_infer_batch _ [sample]) as [ps |]; simpl; [| done].
    by destruct (ps !! 0%nat).
  - intros sample_batch. unfold _infer_batch. simpl.
    destruct (sample_batch !! 0%nat) as [first |]; [| done].
    pose proof (texts_of_no_AttributeError first) as Ht.
    destruct (texts_of first) as [texts | e]; simpl; [| congruence].
    apply strip_prompts_no_AttributeError.
Qed.

End Constructor.

(** ** run: the index column and the order of the metrics *)

Section EvaluatorMore.

Context {Score : Type}.
Variable read_csv : string -> result DataFrame.
Variable load : string -> result (TaskEvaluator.Scorer Score).

Import TaskEvaluator.

(** A table that was persisted without its index has no column
    [Unnamed: 0]: [run] then raises [KeyError] for that label before any
    metric is looked at. *)
Theorem run_without_index_column (self : t) (csv : DataFrame) :
  read_csv (_data_path self) = Ok csv ->
  "Unnamed: 0" ∉ columns csv ->
  run read_csv load self = Raise (KeyError ["Unnamed: 0"]).
Proof.
  intros Hread Hidx. unfold run. rewrite Hread. simpl. rewrite drop_missing.
  rewrite filter_cons_True by done. by rewrite filter_nil.
Qed.

(** When the table is read and the two scorers load and compute, the
    mapping depends only on which of bleu and rouge are requested: the
    order of the identifiers, repetitions and unrecognised identifiers
    make no difference. *)
Theorem run_same_requests (self1 self2 : t) (csv : DataFrame)
    (references predictions : Series)
    (bleu rouge : Scorer Score) (bleu_score rouge_score : gmap string Score) :
  _data_path self1 = _data_path self2 ->
  read_csv (_data_path self1) = Ok csv ->
  "Unnamed: 0" ∈ columns csv ->
  getitem "target" csv = Ok references ->
  getitem "predictions" csv = Ok predictions ->
  load "bleu" = Ok bleu -> bleu references predictions = Ok bleu_score ->
  load "rouge" = Ok rouge -> rouge references predictions = Ok rouge_score ->
  requested "bleu" (_metrics self1) = requested "bleu" (_metrics self2) ->
  requested "rouge" (_metrics self1) = requested "rouge" (_metrics self2) ->
  run read_csv load self1 = run read_csv load self2.
Proof.
  intros Hpath Hread Hidx Href Hpred Hlb Hb Hlr Hr Hrb Hrr.
  unfold run. rewrite <- Hpath, Hread. simpl.
  rewrite (drop_present ["Unnamed: 0"]) by (repeat constructor; done). simpl.
  set (data := mkDataFrame _ _).
  assert (drop ["Unnamed: 0"] csv = Ok data) as Hdrop
    by (rewrite (drop_present ["Unnamed: 0"]) by (repeat constructor; done); done).
  assert ("target" ∉ ["Unnamed: 0"]) as Ht
    by (apply not_elem_of_cons; split; [done | apply not_elem_of_nil]).
  assert ("predictions" ∉ ["Unnamed: 0"]) as Hp
    by (apply not_elem_of_cons; split; [done | apply not_elem_of_nil]).
  assert (getitem "target" data = Ok references) as Href'
    by (by rewrite (getitem_drop read_csv load _ _ csv data Hdrop Ht)).
  assert (getitem "predictions" data = Ok predictions) as Hpred'
    by (by rewrite (getitem_drop read_csv load _ _ csv data Hdrop Hp)).
  destruct (for_metric_scores load data references predictions bleu rouge bleu_score
              rouge_score (_metrics self1) ∅ Href' Hpred' Hlb Hb Hlr Hr)
    as (m1 & Hrun1 & Hb1 & Hr1).
  destruct (for_metric_scores load data references predictions bleu rouge bleu_score
              rouge_score (_metrics self2) ∅ Href' Hpred' Hlb Hb Hlr Hr)
    as (m2 & Hrun2 & Hb2 & Hr2).
  rewrite Hrun1, Hrun2. f_equal. apply map_eq. intros k.
  destruct (decide (k = "bleu")) as [-> | Hkb]; [by rewrite Hb1, Hb2, Hrb |].
  destruct (decide (k = "rouge")) as [-> | Hkr]; [by rewrite Hr1, Hr2, Hrr |].
  rewrite (for_metric_keys load data _ ∅ m1 k Hrun1) by done.
  by rewrite (for_metric_keys load data _ ∅ m2 k Hrun2).
Qed.

End EvaluatorMore.

(** ** obtain: what it keeps and what it stores *)

Section ImporterMore.

Context {World HFDataset Other : Type}.
Variable load_dataset : string -> string -> World -> result HFDataset * World.
Variable to_pandas : HFDataset -> result (@RawDataImporter.pyobject Other).

Import RawDataImporter.

(** [obtain] never changes the name of the dataset.  When it returns,
    the importer holds a frame, the one the fetch gave; when it raises
    anything but [TypeError], the importer is as before. *)
Theorem obtain_keeps_name_and_stores_frame (self : t Other) (w : World) :
  _hf_name (obtain load_dataset to_pandas self w).1.2 = _hf_name self /\
  ((obtain load_dataset to_pandas self w).1.1 = Ok tt ->
   exists dataset df,
     (load_dataset (_hf_name self) "train" w).1 = Ok dataset /\
     to_pandas dataset = Ok (IsDataFrame df) /\
     _raw_data (obtain load_dataset to_pandas self w).1.2 = Some (IsDataFrame df)) /\
  (forall e, (obtain load_dataset to_pandas self w).1.1 = Raise e -> e ≠ TypeError ->
     (obtain load_dataset to_pandas self w).1.2 = self).
Proof.
  unfold obtain.
  destruct (load_dataset (_hf_name self) "train" w) as [[dataset | e] w']; simpl.
  - destruct (to_pandas dataset) as [[df | o] | e'] eqn:E; simpl.
    + split; [done |]. split; [intros _; by exists dataset, df | done].
    + split; [done |]. split; [done |]. intros e [= <-] He. by destruct He.
    + split; [done |]. split; done.
  - split; [done |]. split; done.
Qed.

End ImporterMore.


(** ** The further properties at the example tables *)

Lemma transform_feeds_dataset_witness :
  exists out : DataFrame,
    RawDataPreprocessor.transform (RawDataPreprocessor.mk example_raw None)
    = Ok (RawDataPreprocessor.mk example_raw (Some out)) /\
    TaskDataset.__len__ (TaskDataset.mk out) = 1.
Proof.
  destruct (transform_feeds_dataset (RawDataPreprocessor.mk example_raw None))
    as (out & Hrun & _ & Hlen & _).
  - exact wf_example_raw.
  - by apply (bool_decide_unpack _).
  - by apply (bool_decide_unpack _).
  - by apply (bool_decide_unpack _).
  - by apply (bool_decide_unpack _).
  - by apply (bool_decide_unpack _).
  - by apply (bool_decide_unpack _).
  - exists out. split; [exact Hrun | exact Hlen].
Defined.

Lemma analyze_no_complete_row_witness :
  RawDataPreprocessor.analyze (RawDataPreprocessor.mk example_raw None) = Raise ValueError.
Proof.
  refine (proj1 (analyze_no_complete_row (RawDataPreprocessor.mk example_raw None) _) _).
  - intros r Hr. simpl in Hr. apply list_elem_of_singleton in Hr as ->.
    by apply (bool_decide_unpack _).
  - left. by apply (bool_decide_unpack _).
Defined.

Lemma analyze_report_bounds_witness :
  exists (report : gmap string nat) (samples duplicates : nat),
    RawDataPreprocessor.analyze (RawDataPreprocessor.mk example_mixed None) = Ok report /\
    report !! "dataset_number_of_samples" = Some samples /\
    report !! "dataset_duplicates" = Some duplicates /\
    duplicates < samples.
Proof.
  assert (exists report,
            RawDataPreprocessor.analyze (RawDataPreprocessor.mk example_mixed None)
            = Ok report) as [report Hrun].
  { eexists. vm_compute. reflexivity. }
  destruct (analyze_report_bounds _ report Hrun)
    as (samples & duplicates & _ & _ & Hn & Hd & _ & _ & _ & Hlt & _).
  exists report, samples, duplicates.
  split; [exact Hrun |]. split; [exact Hn |]. split; [exact Hd | exact Hlt].
Defined.

Lemma analyze_row_order_witness :
  RawDataPreprocessor.analyze (RawDataPreprocessor.mk example_mixed_reordered None)
  = RawDataPreprocessor.analyze (RawDataPreprocessor.mk example_mixed None).
Proof.
  apply (analyze_row_order (RawDataPreprocessor.mk example_mixed None)
           (RawDataPreprocessor.mk example_mixed_reordered None)).
  - exact wf_example_mixed.
  - by apply (bool_decide_unpack _).
  - intros [H _]. revert H. by apply (bool_decide_unpack _).
  - reflexivity.
  - simpl.
    apply NoDup_Permutation.
    + by apply (bool_decide_unpack _).
    + by apply (bool_decide_unpack _).
    + intros x. rewrite !elem_of_cons, !elem_of_nil. tauto.
Defined.

Lemma getitem_missing_column_witness :
  TaskDataset.__getitem__ (TaskDataset.mk example_raw) 0 = Raise (KeyError ["question"]).
Proof.
  refine (proj1 (getitem_missing_column example_raw 0
                   (0%Z, [Text "Explain X"; Text ""; Text "X is Y"; Text "..."])
                   eq_refl eq_refl) _).
  by apply (bool_decide_unpack _).
Defined.

Lemma infer_batch_counts_witness :
  exists out : list string,
    LLMPipeline._infer_batch (toy_pipeline example_clean 2) [map Text ["Hi"; "Explain X"]]
    = Ok out /\ length out = 2.
Proof.
  destruct (proj1 (infer_batch_counts (toy_pipeline example_clean 2) toy_model
                     ["Hi"; "Explain X"] [] eq_refl)) as (out & Hrun & Hlen).
  - simpl. lia.
  - exists out. split; [exact Hrun | exact Hlen].
Defined.

(** The echo model returns the prompt alone: the result is empty. *)
Lemma infer_batch_result_length_witness :
  String.length "" = String.length "Hi" - (String.length "Hi" + 1) /\
  (String.length "Hi" <= String.length "Hi" -> "" = "").
Proof.
  apply (infer_batch_result_length (echo_pipeline example_clean 2) echo_model
           ["Hi"; "Explain X"] [] [""; ""] 0 "Hi" "Hi" "").
  - reflexivity.
  - simpl. lia.
  - reflexivity.
  - reflexivity.
  - reflexivity.
  - reflexivity.
Defined.

Lemma infer_dataset_without_rows_witness :
  exists data' out : DataFrame,
    LLMPipeline.infer_dataset (toy_pipeline_without_model example_no_rows 4)
    = (Ok out, LLMPipeline.set_data (toy_pipeline_without_model example_no_rows 4) data') /\
    rows out = [].
Proof.
  destruct (infer_dataset_without_rows (toy_pipeline_without_model example_no_rows 4)
              example_no_rows) as (data' & out & Hrun & _ & Hrows & _).
  - reflexivity.
  - reflexivity.
  - by apply (bool_decide_unpack _).
  - simpl. lia.
  - exists data', out. split; [exact Hrun | exact Hrows].
Defined.

Lemma infer_dataset_again_witness :
  exists out self',
    LLMPipeline.infer_dataset (toy_pipeline example_clean 2) = (Ok out, self') /\
    LLMPipeline.infer_dataset self' = (Ok out, self').
Proof.
  apply (infer_dataset_again (toy_pipeline example_clean 2) toy_model example_clean
           [("Hi", "a long target"); ("Explain X", "X is Y")]).
  - reflexivity.
  - exact text_dataset_example_clean.
  - simpl. lia.
  - reflexivity.
  - apply one_per_text_toy.
Defined.

Lemma infer_dataset_one_by_one_witness :
  exists out p,
    (LLMPipeline.infer_dataset (toy_pipeline example_clean 1)).1 = Ok out /\
    LLMPipeline.infer_sample (toy_pipeline example_clean 1) [Text "Hi"] = Ok (Some p) /\
    rows out !! 0%nat = Some (0%Z, [Text "a long target"; Text p]).
Proof.
  destruct (infer_dataset_one_by_one (toy_pipeline example_clean 1) toy_model example_clean
              [("Hi", "a long target"); ("Explain X", "X is Y")])
    as (out & Hrun & Hrows).
  - reflexivity.
  - exact text_dataset_example_clean.
  - reflexivity.
  - reflexivity.
  - apply one_per_text_toy.
  - destruct (Hrows 0%nat (0%Z, [Text "Hi"; Text "a long target"]) ("Hi", "a long target")
                eq_refl eq_refl) as (p & Hp & Hrow).
    exists out, p. split; [exact Hrun |]. split; [exact Hp | exact Hrow].
Defined.

Lemma constructed_pipeline_has_model_witness :
  exists model,
    toy_model_from_pretrained "toy" = Ok model /\
    LLMPipeline._model (toy_pipeline example_clean 2) = Some model.
Proof.
  exact (proj1 (constructed_pipeline_has_model toy_model_from_pretrained
                  toy_tokenizer_from_pretrained (fun tokenizer => tokenizer)
                  "toy" (TaskDataset.mk example_clean) 16 2 "cpu"
                  (toy_pipeline example_clean 2) eq_refl)).
Defined.

Lemma run_without_index_column_witness :
  TaskEvaluator.run (fun _ => Ok example_clean) toy_load
    (TaskEvaluator.mk "predictions.csv" [TaskEvaluator.mkMetrics "bleu"])
  = Raise (KeyError ["Unnamed: 0"]).
Proof.
  apply (run_without_index_column (fun _ => Ok example_clean) toy_load
           (TaskEvaluator.mk "predictions.csv" [TaskEvaluator.mkMetrics "bleu"])
           example_clean).
  - reflexivity.
  - by apply (bool_decide_unpack _).
Defined.

Lemma run_same_requests_witness :
  TaskEvaluator.run toy_read_csv toy_load
    (TaskEvaluator.mk "predictions.csv"
       [TaskEvaluator.mkMetrics "rouge"; TaskEvaluator.mkMetrics "bleu";
        TaskEvaluator.mkMetrics "rouge"])
  = TaskEvaluator.run toy_read_csv toy_load
      (TaskEvaluator.mk "predictions.csv"
         [TaskEvaluator.mkMetrics "bleu"; TaskEvaluator.mkMetrics "squad";
          TaskEvaluator.mkMetrics "rouge"]).
Proof.
  apply (run_same_requests toy_read_csv toy_load _ _ example_csv
           [Text "a long target"; Text "X is Y"] [Text "yes"; Text "X is Y"]
           (fun references predictions =>
              Ok (<["bleu" := toy_matches references predictions]>
                  (<["length_ratio" := 1]> ∅)))
           (fun references predictions =>
              Ok (<["rouge1" := 0]>
                  (<["rougeL" := 10 * toy_matches references predictions]> ∅)))
           (<["bleu" := 1]> (<["length_ratio" := 1]> ∅))
           (<["rouge1" := 0]> (<["rougeL" := 10]> ∅))).
  - reflexivity.
  - reflexivity.
  - by apply (bool_decide_unpack _).
  - reflexivity.
  - reflexivity.
  - reflexivity.
  - reflexivity.
  - reflexivity.
  - reflexivity.
  - reflexivity.
  - reflexivity.
Defined.


(** ** Missing targets *)

(** C3 as stated fails: not every dataset can be run.  The table that
    [transform] stores for [example_mixed] keeps the row whose output is
    missing; with batch size 1 the batch of that row has a missing target,
    which the collation of the data loader refuses: [infer_dataset] raises
    [TypeError] and the table gets no predictions. *)
Lemma infer_dataset_raises_on_missing_target :
  RawDataPreprocessor.transform (RawDataPreprocessor.mk example_mixed None)
  = Ok (RawDataPreprocessor.mk example_mixed (Some example_mixed_clean)) /\
  LLMPipeline.infer_dataset (toy_pipeline example_mixed_clean 1)
  = (Raise TypeError, toy_pipeline example_mixed_clean 1) /\
  ~ (exists out, (LLMPipeline.infer_dataset (toy_pipeline example_mixed_clean 1)).1 = Ok out).
Proof.
  assert (LLMPipeline.infer_dataset (toy_pipeline example_mixed_clean 1)
          = (Raise TypeError, toy_pipeline example_mixed_clean 1)) as H
    by (vm_compute; reflexivity).
  split; [reflexivity |]. split; [exact H |].
  intros [out Hout]. rewrite H in Hout. discriminate.
Qed.

(** C10 as stated fails: two tables with the same question and different
    targets need not end alike.  With a text target the run gives the
    prediction, with a missing target the collation raises [TypeError]
    before the model is asked. *)
Lemma predictions_depend_on_missing_target :
  getitem "question" example_single = getitem "question" example_missing_target /\
  (out <- (LLMPipeline.infer_dataset (toy_pipeline example_single 1)).1 ;;
   getitem "predictions" out) = Ok [Text "yes"] /\
  (out <- (LLMPipeline.infer_dataset (toy_pipeline example_missing_target 1)).1 ;;
   getitem "predictions" out) = Raise TypeError.
Proof. repeat split; vm_compute; reflexivity. Qed.
